(** * compare_models.py: statistics extraction, reporting and analysis

    A shallow embedding of [src/data/compare_models.py].  The script runs an
    external classifier once per model, scrapes the captured text with
    [extract_statistics], and hands the resulting mappings to two reporters and
    to [analyze_results].

    Conventions of the embedding.
    - A Python [str] is a [string]; characters are code points below 128
      (ASCII), which is what the scraped report consists of.  Case mapping and
      the white-space classes are Python's on that range; other bytes are inert.
    - A Python exception is a value [Raise e] of the result type [res]; a
      [try]/[except] is the combinator [try_except].
    - The [stats] dictionary, which the code only indexes by key, is a
      [gmap string pyval]; the results collection, whose iteration order the
      code depends on, is an association list in insertion order.
    - A Python [float] is a binary64 number of [SpecFloat.spec_float].
    - [print] writes to a standard output whose encoding encodes ASCII.  The
      two status lines of [main]'s loop begin with a mark outside ASCII:
      printing them raises [UnicodeEncodeError] when the encoding of the
      standard output cannot encode the mark. *)

From Stdlib Require Import ZArith Ascii String List Bool Lia.
From Stdlib Require Import DecimalString DecimalPos.
From Stdlib Require Import Floats.
From stdpp Require Import base option gmap strings.

Local Open Scope string_scope.
Local Open Scope Z_scope.

(** ** Exceptions *)

Inductive exn : Set :=
| ValueError
| TypeError
| OverflowError
| StopIteration
| UnicodeEncodeError.

Inductive res (A : Type) : Type :=
| Ok (a : A)
| Raise (e : exn).

Arguments Ok {A} a.
Arguments Raise {A} e.

#[global] Instance res_ret : MRet res := fun A a => Ok a.

#[global] Instance res_bind : MBind res := fun A B k r =>
  match r with
  | Ok a => k a
  | Raise e => Raise e
  end.

#[global] Instance res_fmap : FMap res := fun A B f r =>
  match r with
  | Ok a => Ok (f a)
  | Raise e => Raise e
  end.

(** [try: body / except: handler] with a bare [except], which catches
    whatever [body] raises. *)
Definition try_except {A : Type} (body : res A) (handler : exn -> res A) : res A :=
  match body with
  | Ok a => Ok a
  | Raise e => handler e
  end.

(** ** String builtins *)

Definition code (c : ascii) : Z := Z.of_N (N_of_ascii c).

(** [str.isspace] on ASCII: TAB, LF, VT, FF, CR, FS, GS, RS, US and space. *)
Definition is_space (c : ascii) : bool :=
  let n := code c in
  ((9 <=? n) && (n <=? 13)) || ((28 <=? n) && (n <=? 32)).

(** C's [isspace], which [int] and [float] use on an ASCII string. *)
Definition is_c_space (c : ascii) : bool :=
  let n := code c in
  ((9 <=? n) && (n <=? 13)) || (n =? 32).

Definition is_digit (c : ascii) : bool :=
  let n := code c in (48 <=? n) && (n <=? 57).

Definition digit_val (c : ascii) : option Z :=
  if is_digit c then Some (code c - 48) else None.

Fixpoint lstrip_by (ws : ascii -> bool) (s : string) : string :=
  match s with
  | EmptyString => EmptyString
  | String c r => if ws c then lstrip_by ws r else s
  end.

Fixpoint rstrip_by (ws : ascii -> bool) (s : string) : string :=
  match s with
  | EmptyString => EmptyString
  | String c r =>
      match rstrip_by ws r with
      | EmptyString => if ws c then EmptyString else String c EmptyString
      | r' => String c r'
      end
  end.

(** [s.strip()] *)
Definition strip (s : string) : string := lstrip_by is_space (rstrip_by is_space s).

(** [s.startswith(p)] *)
Fixpoint starts_with (p s : string) : bool :=
  match p with
  | EmptyString => true
  | String a p' =>
      match s with
      | EmptyString => false
      | String b s' => Ascii.eqb a b && starts_with p' s'
      end
  end.

(** The text of one character. *)
Definition single (c : ascii) : string := String c EmptyString.

(** [needle in hay] *)
Fixpoint contains (needle hay : string) : bool :=
  match hay with
  | EmptyString => starts_with needle EmptyString
  | String _ r => starts_with needle hay || contains needle r
  end.

(** [s.split(c)] for a separator of one character.  The split of a text is
    never empty, so the last case below does not occur. *)
Fixpoint split_on (c : ascii) (s : string) : list string :=
  match s with
  | EmptyString => [EmptyString]
  | String a r =>
      if Ascii.eqb a c then EmptyString :: split_on c r
      else match split_on c r with
           | h :: t => String a h :: t
           | [] => [String a EmptyString]
           end
  end.

(** [s.replace(c, new)] for an old text of one character. *)
Fixpoint replace_char (c : ascii) (new : string) (s : string) : string :=
  match s with
  | EmptyString => EmptyString
  | String a r =>
      if Ascii.eqb a c then new +:+ replace_char c new r
      else String a (replace_char c new r)
  end.

Definition lower_char (c : ascii) : ascii :=
  let n := code c in
  if (65 <=? n) && (n <=? 90) then ascii_of_N (Z.to_N (n + 32)) else c.

Definition upper_char (c : ascii) : ascii :=
  let n := code c in
  if (97 <=? n) && (n <=? 122) then ascii_of_N (Z.to_N (n - 32)) else c.

Fixpoint map_chars (f : ascii -> ascii) (s : string) : string :=
  match s with
  | EmptyString => EmptyString
  | String c r => String (f c) (map_chars f r)
  end.

Definition lower : string -> string := map_chars lower_char.
Definition upper : string -> string := map_chars upper_char.

(** [hay.rfind(needle)]: the highest index at which [needle] starts, or -1.
    [i] is the index of the head of [hay], [last] the best index so far. *)
Fixpoint rfind_from (needle hay : string) (i last : Z) : Z :=
  match hay with
  | EmptyString => if starts_with needle EmptyString then i else last
  | String _ r =>
      rfind_from needle r (i + 1) (if starts_with needle hay then i else last)
  end.

Definition rfind (needle hay : string) : Z := rfind_from needle hay 0 (-1).

(** [s[i:]] for an index [i >= 0]. *)
Fixpoint slice_from (i : nat) (s : string) : string :=
  match i, s with
  | O, _ => s
  | S _, EmptyString => EmptyString
  | S j, String _ r => slice_from j r
  end.

Fixpoint spaces (n : nat) : string :=
  match n with
  | O => EmptyString
  | S k => String " " (spaces k)
  end.

(** [f"{s:<w}"]: pad with spaces on the right up to width [w]. *)
Definition ljust (w : nat) (s : string) : string :=
  s +:+ spaces (w - String.length s)%nat.

Definition newline : ascii := ascii_of_N 10.
Definition nl : string := String newline EmptyString.

(** ** Python values held by a [stats] mapping *)

Inductive pyval : Type :=
| VInt (z : Z)
| VFloat (f : spec_float)
| VStr (s : string).

#[global] Instance spec_float_eq_dec : EqDecision spec_float.
Proof. solve_decision. Defined.

#[global] Instance pyval_eq_dec : EqDecision pyval.
Proof. solve_decision. Defined.

(** *** [int(s)] *)

(** [sys.int_info.default_max_str_digits] of CPython 3.11: [int] refuses a
    longer run of digits. *)
Definition int_max_str_digits : nat := 4300.

(** A digit, then digits each optionally preceded by one underscore.
    [after_digit] tells whether the character before the head is a digit:
    only then may the text end or an underscore stand. *)
Fixpoint digit_run_from (after_digit : bool) (s : string) : option (list Z) :=
  match s with
  | EmptyString => if after_digit then Some [] else None
  | String c r =>
      match digit_val c with
      | Some d => cons d <$> digit_run_from true r
      | None =>
          if Ascii.eqb c "_" && after_digit then digit_run_from false r else None
      end
  end.

Definition digit_run (s : string) : option (list Z) := digit_run_from false s.

Definition digits_value (ds : list Z) : Z :=
  fold_left (fun acc d => 10 * acc + d) ds 0.

Definition split_sign (s : string) : bool * string :=
  match s with
  | String c r =>
      if Ascii.eqb c "+" then (false, r)
      else if Ascii.eqb c "-" then (true, r)
      else (false, s)
  | EmptyString => (false, s)
  end.

Definition c_strip (s : string) : string :=
  lstrip_by is_c_space (rstrip_by is_c_space s).

(** [int(s)]: white space off both ends, an optional sign, decimal digits
    with single underscores between them; anything else is a [ValueError]. *)
Definition py_int (s : string) : res Z :=
  let '(neg, body) := split_sign (c_strip s) in
  match digit_run body with
  | Some ds =>
      if (length ds <=? int_max_str_digits)%nat
      then Ok (if neg then - digits_value ds else digits_value ds)
      else Raise ValueError
  | None => Raise ValueError
  end.

(** *** [float(s)] *)

Definition prec : Z := 53.
Definition emax : Z := 1024.

(** The binary64 number nearest to [m * 10^e], ties to even, as [float]
    reads a decimal literal: the integer [m * 10^e] rounded once, or the
    quotient of the integers [m] and [10^(-e)] rounded once.  Too large a
    value is an infinity, too small a one a zero; the sign is kept on a zero. *)
Definition float_of_decimal (neg : bool) (m e : Z) : spec_float :=
  match m with
  | Zpos p =>
      if 0 <=? e then binary_round prec emax neg (Z.to_pos (m * 10 ^ e)) 0
      else SFdiv prec emax (S754_finite neg p 0)
                           (S754_finite false (Z.to_pos (10 ^ (- e))) 0)
  | _ => S754_zero neg
  end.

Definition is_underscore (c : ascii) : bool := Ascii.eqb c "_".

(** The underscore rule of numeric literals: an underscore stands between two
    digits; [prev] is the character before the head of [s]. *)
Fixpoint drop_underscores (prev : option ascii) (s : string) : option string :=
  match s with
  | EmptyString =>
      if from_option is_underscore false prev then None else Some EmptyString
  | String c r =>
      if is_underscore c then
        if from_option is_digit false prev then drop_underscores (Some c) r else None
      else if from_option is_underscore false prev && negb (is_digit c) then None
      else String c <$> drop_underscores (Some c) r
  end.

Fixpoint take_digits (s : string) : list Z * string :=
  match s with
  | EmptyString => ([], EmptyString)
  | String c r =>
      match digit_val c with
      | Some d => let '(ds, rest) := take_digits r in (d :: ds, rest)
      | None => ([], s)
      end
  end.

(** What follows the mantissa: nothing, or [e] or [E], a sign and digits. *)
Definition parse_exponent (s : string) : option Z :=
  match s with
  | EmptyString => Some 0
  | String c r =>
      if Ascii.eqb c "e" || Ascii.eqb c "E" then
        let '(neg, r') := split_sign r in
        match take_digits r' with
        | (d :: ds, EmptyString) =>
            Some (if neg then - digits_value (d :: ds) else digits_value (d :: ds))
        | _ => None
        end
      else None
  end.

(** A decimal literal as sign, mantissa and power of ten. *)
Definition parse_decimal (s : string) : option (bool * Z * Z) :=
  let '(neg, body) := split_sign s in
  let '(ip, r1) := take_digits body in
  let '(fp, r2) :=
    match r1 with
    | String c r => if Ascii.eqb c "." then take_digits r else ([], r1)
    | EmptyString => ([], r1)
    end in
  match (ip ++ fp)%list with
  | [] => None
  | ds =>
      e ← parse_exponent r2;
      Some (neg, digits_value ds, e - Z.of_nat (length fp))
  end.

Definition parse_inf_nan (s : string) : option spec_float :=
  let '(neg, body) := split_sign s in
  let b := lower body in
  if String.eqb b "inf" || String.eqb b "infinity" then Some (S754_infinity neg)
  else if String.eqb b "nan" then Some S754_nan
  else None.

(** [float(s)]: white space off both ends, the underscore rule, then a
    decimal literal or, in any case of letters, [inf], [infinity] or [nan]
    with an optional sign; anything else is a [ValueError]. *)
Definition py_float (s : string) : res spec_float :=
  match drop_underscores None (c_strip s) with
  | None => Raise ValueError
  | Some u =>
      match parse_decimal u with
      | Some (neg, m, e) => Ok (float_of_decimal neg m e)
      | None =>
          match parse_inf_nan u with
          | Some f => Ok f
          | None => Raise ValueError
          end
      end
  end.

(** *** Formatting *)

(** [str(z)] for an [int]. *)
Definition str_int (z : Z) : string := NilZero.string_of_int (Z.to_int z).

Definition round_half_even (num den : Z) : Z :=
  let q := num / den in
  match (2 * (num mod den) ?= den) with
  | Lt => q
  | Eq => if Z.even q then q else q + 1
  | Gt => q + 1
  end.

(** Ten times [m * 2^e], rounded to an integer, ties to even. *)
Definition tenths (m : positive) (e : Z) : Z :=
  if 0 <=? e then Zpos m * 2 ^ e * 10
  else round_half_even (Zpos m * 10) (2 ^ (- e)).

Definition fixed1 (neg : bool) (t : Z) : string :=
  (if neg then "-" else "") +:+ str_int (t / 10) +:+ "." +:+ str_int (t mod 10).

(** [f"{x:.1f}"] for a [float]. *)
Definition format_float_1f (f : spec_float) : string :=
  match f with
  | S754_nan => "nan"
  | S754_infinity s => if s then "-inf" else "inf"
  | S754_zero s => fixed1 s 0
  | S754_finite s m e => fixed1 s (tenths m e)
  end.

(** [f"{v:.1f}"]: an [int] is converted to [float] first, a [str] has no
    format code [f]. *)
Definition format_1f (v : pyval) : res string :=
  match v with
  | VFloat f => Ok (format_float_1f f)
  | VInt z =>
      match binary_normalize prec emax z 0 false with
      | S754_infinity _ => Raise OverflowError
      | f => Ok (format_float_1f f)
      end
  | VStr _ => Raise ValueError
  end.

(** *** Ordering *)

Inductive ext : Set :=
| NegInf
| Fin (z : Z)
| PosInf.

Definition ext_ltb (a b : ext) : bool :=
  match a, b with
  | NegInf, NegInf => false
  | NegInf, _ => true
  | Fin x, Fin y => x <? y
  | Fin _, PosInf => true
  | _, _ => false
  end.

(** A number other than NaN as a multiple of [2^-1074], the spacing of the
    smallest binary64 numbers: every finite binary64 number, and every [int],
    is such a multiple, so the order of numbers is the order of these. *)
Definition num_ord (v : pyval) : option ext :=
  match v with
  | VInt z => Some (Fin (Z.shiftl z 1074))
  | VFloat (S754_finite s m e) =>
      Some (Fin (let a := Z.shiftl (Zpos m) (e + 1074) in if s then - a else a))
  | VFloat (S754_zero _) => Some (Fin 0)
  | VFloat (S754_infinity s) => Some (if s then NegInf else PosInf)
  | VFloat S754_nan => None
  | VStr _ => None
  end.

Definition is_str (v : pyval) : bool :=
  match v with VStr _ => true | _ => false end.

(** [a > b] *)
Definition py_gt (a b : pyval) : res bool :=
  match a, b with
  | VStr x, VStr y => Ok (String.ltb y x)
  | VStr _, _ | _, VStr _ => Raise TypeError
  | _, _ =>
      match num_ord a, num_ord b with
      | Some x, Some y => Ok (ext_ltb y x)
      | _, _ => Ok false
      end
  end.

(** ** The Statistics Extractor: [extract_statistics] *)

Abbreviation stats := (gmap string pyval).

(** The loop's variables: the mapping under construction and the flag. *)
Record scan_state : Type := ScanState {
  st_stats : stats;
  in_results_section : bool
}.

(** What one iteration of the loop leads to: the next line, or [break]. *)
Inductive step : Type :=
| Next (st : scan_state)
| Stop (st : scan_state).

Definition SECTION_MARKER : string := "Results Summary for CNN Model Architecture".
Definition RUNTIME_MARKER : string := "Total Elapsed Runtime".

(** [stats[key] = v] *)
Definition set_stat (st : scan_state) (key : string) (v : pyval) : scan_state :=
  ScanState (<[key := v]> (st_stats st)) (in_results_section st).

(** The body shared by the three count branches (source lines 43-48, 50-55,
    57-62): [parts = line.split(":")], and with exactly two parts
    [stats[key] = int(parts[1].strip())] under a bare [except: pass]. *)
Definition count_line (key : string) (st : scan_state) (line : string) : res scan_state :=
  match split_on ":" line with
  | [_; p1] =>
      try_except (n ← py_int (strip p1); mret (set_stat st key (VInt n)))
                 (fun _ => mret st)
  | _ => mret st
  end.

(** The generic percentage branch (source lines 64-71). *)
Definition pct_line (st : scan_state) (line : string) : res scan_state :=
  match split_on ":" line with
  | [p0; p1] =>
      let key := lower (replace_char " " "_" (strip p0)) in
      let value := replace_char "%" "" (strip p1) in
      try_except (f ← py_float value; mret (set_stat st key (VFloat f)))
                 (fun _ => mret (set_stat st key (VStr value)))
  | _ => mret st
  end.

(** The runtime branch (source lines 75-78), which is followed by [break]. *)
Definition runtime_line (st : scan_state) (line : string) : scan_state :=
  let runtime_start := rfind ": " line + 2 in
  if 1 <? runtime_start
  then set_stat st "runtime" (VStr (strip (slice_from (Z.to_nat runtime_start) line)))
  else st.

(** The body of [for line in lines] (source lines 39-79). *)
Definition process_line (st : scan_state) (line : string) : res step :=
  if contains SECTION_MARKER line then
    mret (Next (ScanState (st_stats st) true))
  else if in_results_section st && contains "N Images" line && contains ":" line then
    Next <$> count_line "n_images" st line
  else if in_results_section st && contains "N Dog Images" line && contains ":" line then
    Next <$> count_line "n_dogs" st line
  else if in_results_section st && contains "N Not-Dog Images" line && contains ":" line then
    Next <$> count_line "n_notdogs" st line
  else if in_results_section st && contains ":" line && contains "%" line then
    Next <$> pct_line st line
  else if contains RUNTIME_MARKER line then
    mret (Stop (runtime_line st line))
  else mret (Next st).

Fixpoint scan_lines (st : scan_state) (lines : list string) : res stats :=
  match lines with
  | [] => mret (st_stats st)
  | line :: rest =>
      s ← process_line st line;
      match s with
      | Next st' => scan_lines st' rest
      | Stop st' => mret (st_stats st')
      end
  end.

Definition initial_state : scan_state := ScanState ∅ false.

Definition extract_statistics (output_text : string) : res stats :=
  scan_lines initial_state (split_on newline output_text).

(** The state in which the loop reaches the line after [lines], when no line
    of [lines] leaves the loop. *)
Fixpoint state_after (st : scan_state) (lines : list string) : res (option scan_state) :=
  match lines with
  | [] => mret (Some st)
  | line :: rest =>
      s ← process_line st line;
      match s with
      | Next st' => state_after st' rest
      | Stop _ => mret None
      end
  end.

(** ** The results collection and [main]'s loop *)

(** A run result: [None], or a [stats] mapping. *)
Abbreviation run_result := (option stats).

(** The results collection: a [dict] in insertion order. *)
Abbreviation results := (list (string * run_result)).

(** [if stats:] for a run result: [None] and the empty mapping are false. *)
Definition truthy (r : run_result) : bool :=
  match r with
  | Some m => negb (bool_decide (m = ∅))
  | None => false
  end.

(** [d.get(key, default)] *)
Definition get_or (m : stats) (key : string) (dflt : pyval) : pyval :=
  default dflt (m !! key).

(** [all_results[model_key]] when [model_key in all_results]. *)
Fixpoint dict_get (key : string) (d : results) : option run_result :=
  match d with
  | [] => None
  | (k, v) :: rest => if String.eqb k key then Some v else dict_get key rest
  end.

(** [all_results[model] = v]: a present key keeps its place, a new one is
    added last. *)
Fixpoint dict_set (key : string) (v : run_result) (d : results) : results :=
  match d with
  | [] => [(key, v)]
  | (k, w) :: rest =>
      if String.eqb k key then (k, v) :: rest else (k, w) :: dict_set key v rest
  end.

Definition MODELS : list string := ["vgg"; "alexnet"; "resnet"].

(** The loop of [main] (source lines 292-300).  [run] stands for
    [run_model_and_capture_results]: the captured standard output, or [None]
    when the run failed.  An empty output is false in [if output:]. *)
Fixpoint collect_results (run : string -> option string) (models : list string)
    (all_results : results) : res results :=
  match models with
  | [] => mret all_results
  | model :: rest =>
      match run model with
      | Some (String c r) =>
          st ← extract_statistics (String c r);
          collect_results run rest (dict_set model (Some st) all_results)
      | _ => collect_results run rest (dict_set model None all_results)
      end
  end.

(** ** The Console Reporter: [create_console_results_table] *)

Fixpoint repeat_string (s : string) (n : nat) : string :=
  match n with
  | O => EmptyString
  | S k => s +:+ repeat_string s k
  end.

(** [f"{dogs:.1f}%" if isinstance(dogs, float) else str(dogs)] *)
Definition metric_cell (v : pyval) : string :=
  match v with
  | VFloat f => format_float_1f f +:+ "%"
  | VInt z => str_int z
  | VStr s => s
  end.

(** The five texts of a row: the model and the four metric columns. *)
Record console_row : Type := ConsoleRow {
  col_model : string;
  col_dogs : string;
  col_breeds : string;
  col_notdogs : string;
  col_match : string
}.

(** [f"{a:<10} {b:<12} {c:<12} {d:<12} {e:<12}"] *)
Definition format_row (r : console_row) : string :=
  ljust 10 (col_model r) +:+ " " +:+ ljust 12 (col_dogs r) +:+ " " +:+
  ljust 12 (col_breeds r) +:+ " " +:+ ljust 12 (col_notdogs r) +:+ " " +:+
  ljust 12 (col_match r).

(** The body of [for model, stats in all_results.items()] (lines 230-243). *)
Definition console_cells (model : string) (r : run_result) : console_row :=
  if truthy r then
    let st := default ∅ r in
    ConsoleRow (upper model)
      (metric_cell (get_or st "pct_correct_dogs" (VStr "N/A")))
      (metric_cell (get_or st "pct_correct_breed" (VStr "N/A")))
      (metric_cell (get_or st "pct_correct_notdogs" (VStr "N/A")))
      (metric_cell (get_or st "pct_match" (VStr "N/A")))
  else ConsoleRow (upper model) "ERROR" "ERROR" "ERROR" "ERROR".

(** The lines printed, one per call of [print]. *)
Definition create_console_results_table (all_results : results) : list string :=
  [nl +:+ repeat_string "=" 80;
   "RESULTS COMPARISON TABLE";
   repeat_string "=" 80;
   format_row (ConsoleRow "Model" "% Dogs" "% Breeds" "% Not-Dogs" "% Match");
   repeat_string "-" 60]
  ++ map (fun '(model, r) => format_row (console_cells model r)) all_results.

(** ** The Analyzer: [analyze_results] *)

Definition safe_get (r : run_result) (key : string) : pyval :=
  if truthy r then get_or (default ∅ r) key (VInt 0) else VInt 0.

(** The loop of [max(items, key=f)] after its first item: a later item
    replaces the best one when its key is greater. *)
Fixpoint max_loop {A : Type} (f : A -> pyval) (best : A) (best_key : pyval)
    (items : list A) : res A :=
  match items with
  | [] => mret best
  | x :: rest =>
      b ← py_gt (f x) best_key;
      if b : bool then max_loop f x (f x) rest else max_loop f best best_key rest
  end.

(** [max(items, key=f)]; an empty sequence raises [ValueError]. *)
Definition py_max {A : Type} (f : A -> pyval) (items : list A) : res A :=
  match items with
  | [] => Raise ValueError
  | x :: rest => max_loop f x (f x) rest
  end.

Definition metric_of (key : string) (item : string * run_result) : pyval :=
  safe_get (snd item) key.

Record analysis : Type := Analysis {
  best_dogs : string * run_result;
  best_breeds : string * run_result;
  best_notdogs : string * run_result;
  best_overall : string * run_result;
  recommended : string;
  report : list string
}.

(** [f"{label}: {best[0].upper()} ({safe_get(best[1], key):.1f}%)"] *)
Definition best_line (label key : string) (best : string * run_result) : res string :=
  v ← format_1f (safe_get (snd best) key);
  mret (label +:+ ": " +:+ upper (fst best) +:+ " (" +:+ v +:+ "%)").

Definition analyze_results (all_results : results) : res analysis :=
  bd ← py_max (metric_of "pct_correct_dogs") all_results;
  bb ← py_max (metric_of "pct_correct_breed") all_results;
  bn ← py_max (metric_of "pct_correct_notdogs") all_results;
  bo ← py_max (metric_of "pct_match") all_results;
  l1 ← best_line "Best at identifying dogs" "pct_correct_dogs" bd;
  l2 ← best_line "Best at breed classification" "pct_correct_breed" bb;
  l3 ← best_line "Best at identifying non-dogs" "pct_correct_notdogs" bn;
  l4 ← best_line "Best overall match rate" "pct_match" bo;
  mret (Analysis bd bb bn bo (upper (fst bo))
          [nl +:+ repeat_string "=" 80; "ANALYSIS"; repeat_string "=" 80;
           l1; l2; l3; l4;
           nl +:+ "RECOMMENDED MODEL: " +:+ upper (fst bo)]).

(** ** The Visual Reporter: [create_visual_results_table] *)

Section Visual.

(** [repr] of a [float], which [str] returns: the shortest digits that read
    back as the same number.  The text matters to no property below. *)
Variable float_repr : spec_float -> string.

(** [str(v)] *)
Definition py_str (v : pyval) : string :=
  match v with
  | VInt z => str_int z
  | VFloat f => float_repr f
  | VStr s => s
  end.

(** What is drawn and saved. *)
Record figure : Type := Figure {
  fig_title : string;
  summary_data : list (list string);
  headers : list string;
  table_data : list (list string);
  emphasised : list (list bool);
  fig_footer : string;
  fig_filename : string
}.

Definition DISPLAY_MODELS : list string := ["ResNet"; "AlexNet"; "VGG"].

Definition HEADERS : list string :=
  ["Model Architecture"; "% Not-a-Dog" +:+ nl +:+ "Correct"; "% Dogs" +:+ nl +:+ "Correct";
   "% Breeds" +:+ nl +:+ "Correct"; "% Match" +:+ nl +:+ "Labels";
   "Total Elapsed" +:+ nl +:+ "Runtime"].

Definition ERROR_ROW (model : string) : list string :=
  [model; "ERROR"; "ERROR"; "ERROR"; "ERROR"; "ERROR"].

(** [f"{stats.get(key, 0):.1f}%"] *)
Definition pct_text (st : stats) (key : string) : res string :=
  v ← format_1f (get_or st key (VInt 0));
  mret (v +:+ "%").

(** The body of [for model in models] (source lines 149-160).  The runtime
    cell is the stored value; the table draws its [str]. *)
Definition visual_row (all_results : results) (model : string) : res (list string) :=
  let model_key := lower model in
  match dict_get model_key all_results with
  | Some r =>
      if truthy r then
        let st := default ∅ r in
        notdog_pct ← pct_text st "pct_correct_notdogs";
        dog_pct ← pct_text st "pct_correct_dogs";
        breed_pct ← pct_text st "pct_correct_breed";
        match_pct ← pct_text st "pct_match";
        let runtime := get_or st "runtime" (VStr "0:0:0") in
        mret [model; notdog_pct; dog_pct; breed_pct; match_pct; py_str runtime]
      else mret (ERROR_ROW model)
  | None => mret (ERROR_ROW model)
  end.

Fixpoint visual_rows (all_results : results) (models : list string) : res (list (list string)) :=
  match models with
  | [] => mret []
  | model :: rest =>
      row ← visual_row all_results model;
      rows ← visual_rows all_results rest;
      mret (row :: rows)
  end.

(** The cells drawn bold and blue (source lines 197-201). *)
Definition is_emphasised (cell_text : string) : bool :=
  contains "100.0%" cell_text
  || existsb (fun x => contains x cell_text) ["93.3%"; "90.0%"; "80.0%"].

(** The printed lines and the saved figure, [None] when none is saved.
    [matplotlib_available] tells whether the three imports succeed;
    [next(iter(...))] raises [StopIteration] on an empty collection. *)
Definition create_visual_results_table (matplotlib_available : bool)
    (all_results : results) : res (list string * option figure) :=
  if negb matplotlib_available then
    mret (["Matplotlib not available. Skipping visual table creation."], None)
  else
    match all_results with
    | [] => Raise StopIteration
    | (_, sample_stats) :: _ =>
        if negb (truthy sample_stats) then
          mret (["No valid results to display"], None)
        else
          let st := default ∅ sample_stats in
          let n_images := get_or st "n_images" (VInt 0) in
          let n_dogs := get_or st "n_dogs" (VInt 0) in
          let n_notdogs := get_or st "n_notdogs" (VInt 0) in
          let summary :=
            [["# Total Images"; py_str n_images];
             ["# Dog Images"; py_str n_dogs];
             ["# Not-a-Dog Images"; py_str n_notdogs]] in
          rows ← visual_rows all_results DISPLAY_MODELS;
          let filename := "results_table_uploaded-images.png" in
          mret ([nl +:+ "Visual results table saved as: " +:+ filename],
                Some (Figure "Results Table" summary HEADERS rows
                        (map (fun row => map is_emphasised (tail row)) rows)
                        "Project Results" filename))
    end.

End Visual.

(** ** The workflow with its effects: [run_model_and_capture_results], [main] *)

(** What [subprocess.run] leads to: a finished process with its exit status
    and captured streams, the timeout, or any other exception. *)
Inductive process_result : Type :=
| CompletedProcess (returncode : Z) (stdout stderr : string)
| TimeoutExpired
| OtherException (message : string).

(** What the script leaves behind: the lines printed, one per call of
    [print], the commands run with their timeout, and the figures saved. *)
Record world : Type := World {
  printed : list string;
  spawned : list (list string * Z);
  saved : list figure
}.

(** What the script finds around it: the interpreter's path, the paths that
    exist, what each command does, whether the plotting library can be
    imported, and which texts with characters outside ASCII the encoding of
    the standard output can encode. *)
Record environment : Type := Environment {
  sys_executable : string;
  path_exists : string -> bool;
  subprocess_result : list string -> process_result;
  matplotlib_available : bool;
  stdout_encodes : string -> bool
}.

(** The parsed command line: [--dir] and [--dogfile]. *)
Record arguments : Type := Args {
  arg_dir : string;
  arg_dogfile : string
}.

Definition DEFAULT_ARGUMENTS : arguments := Args "uploaded_images/" "dognames.txt".

(** A computation that changes the world and returns a value or raises; what
    was printed, run and saved before an exception stays. *)
Definition io (A : Type) : Type := world -> world * res A.

#[global] Instance io_ret : MRet io := fun A a w => (w, Ok a).

#[global] Instance io_bind : MBind io := fun A B k m w =>
  match m w with
  | (w', Ok a) => k a w'
  | (w', Raise e) => (w', Raise e)
  end.

(** [print(s)] for a text of ASCII characters, which every encoding of the
    standard output encodes.  The texts read from outside are ASCII in this
    development, so all the lines of the script are such texts but the two
    status lines of [main]'s loop, which begin with a mark outside ASCII. *)
Definition print (s : string) : io unit :=
  fun w => (World (printed w ++ [s]) (spawned w) (saved w), Ok tt).

(** [print(s)] for a text that holds a character outside ASCII: the encoder
    of the standard output raises [UnicodeEncodeError] when it cannot encode
    the text, and then nothing of it is written. *)
Definition print_encoded (env : environment) (s : string) : io unit :=
  fun w => if stdout_encodes env s then print s w else (w, Raise UnicodeEncodeError).

Fixpoint print_all (lines : list string) : io unit :=
  match lines with
  | [] => mret tt
  | l :: rest => print l;; print_all rest
  end.

(** A pure step that may raise. *)
Definition lift {A : Type} (r : res A) : io A := fun w => (w, r).

(** [subprocess.run(cmd, capture_output=True, text=True, timeout=t)] *)
Definition subprocess_run (env : environment) (cmd : list string) (timeout : Z)
  : io process_result :=
  fun w => (World (printed w) (spawned w ++ [(cmd, timeout)]) (saved w),
            Ok (subprocess_result env cmd)).

(** [plt.savefig(filename, ...)] *)
Definition savefig (fig : figure) : io unit :=
  fun w => (World (printed w) (spawned w) (saved w ++ [fig]), Ok tt).

(** The command of source lines 12-17. *)
Definition command (env : environment) (model_name image_dir dogfile : string) : list string :=
  [sys_executable env; "check_images.py"; "--dir"; image_dir;
   "--arch"; model_name; "--dogfile"; dogfile].

(** Source lines 7-28.  The three [except] clauses and the test of the exit
    status all return [None]. *)
Definition run_model_and_capture_results (env : environment)
    (model_name image_dir dogfile : string) : io (option string) :=
  print (nl +:+ "Running " +:+ upper model_name +:+ " model...");;
  result ← subprocess_run env (command env model_name image_dir dogfile) 300;
  match result with
  | CompletedProcess returncode stdout stderr =>
      if negb (returncode =? 0) then
        print ("Error running " +:+ model_name +:+ ": " +:+ stderr);;
        mret None
      else mret (Some stdout)
  | TimeoutExpired =>
      print ("Timeout running " +:+ model_name);;
      mret None
  | OtherException message =>
      print ("Error running " +:+ model_name +:+ ": " +:+ message);;
      mret None
  end.

(** The check mark and the cross of source lines 297 and 300, as the bytes
    of their UTF-8 encoding. *)
Definition CHECK_MARK : string :=
  String (ascii_of_N 226) (String (ascii_of_N 156) (String (ascii_of_N 147) EmptyString)).
Definition CROSS_MARK : string :=
  String (ascii_of_N 226) (String (ascii_of_N 156) (String (ascii_of_N 151) EmptyString)).

(** The loop of [main] (source lines 292-300) with its effects.  The two
    status lines are printed outside any [try]. *)
Fixpoint main_loop (env : environment) (args : arguments) (models : list string)
    (all_results : results) : io results :=
  match models with
  | [] => mret all_results
  | model :: rest =>
      output ← run_model_and_capture_results env model (arg_dir args) (arg_dogfile args);
      match output with
      | Some (String c r) =>
          st ← lift (extract_statistics (String c r));
          print_encoded env (CHECK_MARK +:+ " " +:+ upper model +:+ " completed");;
          main_loop env args rest (dict_set model (Some st) all_results)
      | _ =>
          print_encoded env (CROSS_MARK +:+ " " +:+ upper model +:+ " failed");;
          main_loop env args rest (dict_set model None all_results)
      end
  end.

(** [analyze_results] with its prints in the order of the source (lines
    248-264): the heading, the four selections, then each line as soon as
    its text is formatted. *)
Definition analyze_results_io (all_results : results) : io unit :=
  print (nl +:+ repeat_string "=" 80);;
  print "ANALYSIS";;
  print (repeat_string "=" 80);;
  bd ← lift (py_max (metric_of "pct_correct_dogs") all_results);
  bb ← lift (py_max (metric_of "pct_correct_breed") all_results);
  bn ← lift (py_max (metric_of "pct_correct_notdogs") all_results);
  bo ← lift (py_max (metric_of "pct_match") all_results);
  l1 ← lift (best_line "Best at identifying dogs" "pct_correct_dogs" bd);
  print l1;;
  l2 ← lift (best_line "Best at breed classification" "pct_correct_breed" bb);
  print l2;;
  l3 ← lift (best_line "Best at identifying non-dogs" "pct_correct_notdogs" bn);
  print l3;;
  l4 ← lift (best_line "Best overall match rate" "pct_match" bo);
  print l4;;
  print (nl +:+ "RECOMMENDED MODEL: " +:+ upper (fst bo)).

Section Workflow.

Variable float_repr : spec_float -> string.

(** [create_visual_results_table] with its effects: nothing is printed or
    saved before the rows are computed, so an exception leaves no trace. *)
Definition create_visual_results_table_io (env : environment) (all_results : results)
  : io (option string) :=
  '(lines, fig) ← lift (create_visual_results_table float_repr
                          (matplotlib_available env) all_results);
  match fig with
  | Some f => savefig f;; print_all lines;; mret (Some (fig_filename f))
  | None => print_all lines;; mret None
  end.

(** [main] after [parse_args] (source lines 273-307). *)
Definition main (env : environment) (args : arguments) : io unit :=
  if negb (path_exists env "check_images.py") then
    print "ERROR: check_images.py not found in current directory"
  else if negb (path_exists env (arg_dir args)) then
    print ("ERROR: Image directory '" +:+ arg_dir args +:+ "' not found")
  else if negb (path_exists env (arg_dogfile args)) then
    print ("ERROR: Dog names file '" +:+ arg_dogfile args +:+ "' not found")
  else
    print "Uploaded Image Classification - Model Comparison";;
    print (repeat_string "=" 50);;
    all_results ← main_loop env args MODELS [];
    print_all (create_console_results_table all_results);;
    analyze_results_io all_results;;
    create_visual_results_table_io env all_results;;
    print (nl +:+ "Comparison complete!").

End Workflow.

(** ** Notions used to state what the analyzer selects *)

Definition HEADER_LINE : string := "*** Results Summary for CNN Model Architecture VGG ***".

Definition METRICS : list string :=
  ["pct_correct_dogs"; "pct_correct_breed"; "pct_correct_notdogs"; "pct_match"].


(** [a > b] on numbers, false when one of them is NaN. *)
Definition gtb (a b : pyval) : bool :=
  match num_ord a, num_ord b with
  | Some x, Some y => ext_ltb y x
  | _, _ => false
  end.


(** When the winner [best] of the metric [key] has no result, no item of the
    collection has a value above zero for [key]. *)
Definition absent_only_without_positive (key : string) (all_results : results)
    (best : string * run_result) : Prop :=
  snd best = None ->
  forall item, In item all_results -> py_gt (metric_of key item) (VInt 0) = Ok false.

(** Three runs that succeed with match rates 80.0, 90.0 and 93.3. *)
Definition scenario_results : results :=
  [("vgg", Some {[ "pct_match" := VFloat (float_of_decimal false 800 (-1)) ]});
   ("alexnet", Some {[ "pct_match" := VFloat (float_of_decimal false 900 (-1)) ]});
   ("resnet", Some {[ "pct_match" := VFloat (float_of_decimal false 933 (-1)) ]})].

(** A collection in which [vgg] succeeded, [alexnet] failed and [resnet] has
    no entry. *)
Definition partial_results : results :=
  [("vgg", Some {[ "pct_match" := VFloat (float_of_decimal false 800 (-1)) ]});
   ("alexnet", None)].

(** Two runs that tie on the match rate, after a failed one. *)
Definition tie_results : results :=
  [("vgg", None);
   ("alexnet", Some {[ "pct_match" := VFloat (float_of_decimal false 900 (-1)) ]});
   ("resnet", Some {[ "pct_match" := VFloat (float_of_decimal false 900 (-1)) ]})].

(** ** Notions used to state what the console reporter prints *)

Fixpoint all_digits (s : string) : bool :=
  match s with
  | EmptyString => true
  | String c r => is_digit c && all_digits r
  end.

(** A percentage with exactly one fractional digit: an optional minus sign,
    digits, a point, one digit and the percent sign. *)
Definition one_decimal (s : string) : Prop :=
  exists sign ip d,
    s = sign +:+ ip +:+ "." +:+ String d "%" /\
    (sign = "" \/ sign = "-") /\
    ip <> "" /\ all_digits ip = true /\ is_digit d = true.

(** A float that is neither an infinity nor NaN. *)
Definition is_finite (f : spec_float) : bool :=
  match f with
  | S754_zero _ | S754_finite _ _ _ => true
  | S754_infinity _ | S754_nan => false
  end.

(** The metric behind each column of the console table. *)
Definition CONSOLE_COLUMNS : list (string * (console_row -> string)) :=
  [("pct_correct_dogs", col_dogs); ("pct_correct_breed", col_breeds);
   ("pct_correct_notdogs", col_notdogs); ("pct_match", col_match)].

(** ** Notions used to state what the visual reporter draws *)

(** The model has no entry in the collection, or its result is [None] or the
    empty mapping. *)
Definition without_result (model_key : string) (all_results : results) : Prop :=
  match dict_get model_key all_results with
  | Some r => truthy r = false
  | None => True
  end.

(** A row of the detailed table: the model's name and five data cells, all
    of them [ERROR] for a model without result. *)
Definition display_row (all_results : results) (model : string) (row : list string) : Prop :=
  exists cells,
    row = model :: cells /\ length cells = 5%nat /\
    (without_result (lower model) all_results ->
     cells = ["ERROR"; "ERROR"; "ERROR"; "ERROR"; "ERROR"]).

(** Every metric the detailed table prints can be printed with [.1f]. *)
Definition printable (all_results : results) : Prop :=
  forall model key st,
    In model DISPLAY_MODELS -> In key METRICS ->
    dict_get (lower model) all_results = Some (Some st) ->
    exists text, format_1f (get_or st key (VInt 0)) = Ok text.

(** Runs for the examples below: each model prints the header line and one
    more line, or fails. *)
Definition run_with (vgg_line alexnet_line resnet_line : option string)
    (model : string) : option string :=
  (fun line => HEADER_LINE +:+ nl +:+ line) <$>
    (if String.eqb model "vgg" then vgg_line
     else if String.eqb model "alexnet" then alexnet_line
     else if String.eqb model "resnet" then resnet_line
     else None).

(** ** Sample reports *)

(** A report without the section-header line. *)
Definition headless_report_lines : list string :=
  ["N Images            :   4";
   "pct Correct Dogs: 93.3%";
   "** Total Elapsed Runtime: 0:3:15";
   "N Dog Images        :   2"].

(** A report in the classifier's format. *)
Definition sample_lines : list string :=
  ["Command Line Arguments:";
   HEADER_LINE;
   "N Images            :   4";
   "N Dog Images        :   2";
   "N Not-Dog Images    :   2";
   " ";
   "pct Correct Dogs: 93.3%";
   "";
   "** Total Elapsed Runtime: 0:3:15";
   "N Images: 7"].

Fixpoint join_lines (lines : list string) : string :=
  match lines with
  | [] => EmptyString
  | [l] => l
  | l :: rest => l +:+ nl +:+ join_lines rest
  end.

Definition sample_report : string := join_lines sample_lines.

(** ** The specification's wording, for comparison with the code *)

(** The text before and after the first [c] of [s], when [s] holds one. *)
Fixpoint cut_first (c : ascii) (s : string) : option (string * string) :=
  match s with
  | EmptyString => None
  | String a r =>
      if Ascii.eqb a c then Some (EmptyString, r)
      else '(x, y) ← cut_first c r; Some (String a x, y)
  end.

(** The number of occurrences of [c] in [s]. *)
Fixpoint count_char (c : ascii) (s : string) : nat :=
  match s with
  | EmptyString => O
  | String a r => if Ascii.eqb a c then S (count_char c r) else count_char c r
  end.

(** A count line as the specification words it: the line is split on its
    first colon, the trailing part is trimmed and parsed as an integer, and a
    conversion that fails leaves the mapping as it is. *)
Definition spec_count_line (key : string) (st : scan_state) (line : string) : scan_state :=
  match cut_first ":" line with
  | Some (_, trailing) =>
      match py_int (strip trailing) with
      | Ok n => set_stat st key (VInt n)
      | Raise _ => st
      end
  | None => st
  end.

(** The key of a count line: the first of the three labels, in the order of
    the branches, that the line holds. *)
Definition count_key (line : string) : option string :=
  if contains "N Images" line then Some "n_images"
  else if contains "N Dog Images" line then Some "n_dogs"
  else if contains "N Not-Dog Images" line then Some "n_notdogs"
  else None.

(** Whether a branch before the runtime branch takes the line: inside the
    results section, a line with a colon and a count label or a percent sign. *)
Definition taken_earlier (st : scan_state) (line : string) : bool :=
  in_results_section st && contains ":" line &&
  (bool_decide (is_Some (count_key line)) || contains "%" line).

(** A percentage line as the specification words it: the label before the
    colon, trimmed, with underscores for spaces and in lower case, is the key;
    the trimmed value after the colon loses its percent signs and is parsed as
    a float, and is stored as text when the parse fails. *)
Definition spec_pct_line (st : scan_state) (line : string) : scan_state :=
  match cut_first ":" line with
  | Some (label, value) =>
      let key := lower (replace_char " " "_" (strip label)) in
      let text := replace_char "%" "" (strip value) in
      match py_float text with
      | Ok f => set_stat st key (VFloat f)
      | Raise _ => set_stat st key (VStr text)
      end
  | None => st
  end.

(** ** Notions used to state what the extractor keeps *)

Definition COUNT_KEYS : list string := ["n_images"; "n_dogs"; "n_notdogs"].

Definition step_state (s : step) : scan_state :=
  match s with
  | Next st | Stop st => st
  end.

(** What one line can store under [k]: an integer under a count key; under
    the normalised label of a percentage line the float its value reads as,
    or the value's text when it reads as none; under [runtime] the trimmed
    end of the line after its last [": "]. *)
Definition entry_written (k : string) (v : pyval) : Prop :=
  (In k COUNT_KEYS /\ exists z, v = VInt z) \/
  (exists label value,
     contains ":" label = false /\ contains ":" value = false /\
     k = lower (replace_char " " "_" (strip label)) /\
     ((exists f, py_float (replace_char "%" "" (strip value)) = Ok f /\ v = VFloat f) \/
      ((exists e, py_float (replace_char "%" "" (strip value)) = Raise e) /\
       v = VStr (replace_char "%" "" (strip value))))) \/
  (k = "runtime" /\ exists q, contains ": " q = false /\ v = VStr (strip q)).

(** A key without space, without colon and without upper-case letter. *)
Definition normal_key (k : string) : bool :=
  negb (contains " " k) && negb (contains ":" k) && String.eqb (lower k) k.


(** A line that no branch of the loop acts on. *)
Definition is_noise (st : scan_state) (line : string) : bool :=
  negb (contains SECTION_MARKER line) && negb (taken_earlier st line) &&
  negb (contains RUNTIME_MARKER line).

(** A percentage with one fractional digit, [n] tenths, as the classifier
    prints it. *)
Definition tenths_text (n : nat) : string :=
  str_int (Z.of_nat n / 10) +:+ "." +:+ str_int (Z.of_nat n mod 10).

(** Whether the text of [n] tenths, read as a percentage value, is stored as
    a float that [.1f] prints as the same text. *)
Definition tenths_round_trip (n : nat) : bool :=
  match py_float (replace_char "%" "" (strip (" " +:+ tenths_text n +:+ "%"))) with
  | Ok f => String.eqb (format_float_1f f) (tenths_text n)
            && negb (contains ":" (tenths_text n))
  | Raise _ => false
  end.

(** ** Notions used to state what the workflow does *)

(** What [run_model_and_capture_results] returns for a model: the captured
    output of a process that exits with status zero. *)
Definition captured_output (env : environment) (args : arguments) (model : string)
  : option string :=
  match subprocess_result env (command env model (arg_dir args) (arg_dogfile args)) with
  | CompletedProcess returncode stdout _ => if returncode =? 0 then Some stdout else None
  | _ => None
  end.

(** No result of the collection holds a text under one of the four metrics. *)
Definition no_text_metric (all_results : results) : Prop :=
  forall model st key t,
    In (model, Some st) all_results -> In key METRICS -> st !! key <> Some (VStr t).

(** The three paths that [main] checks exist. *)
Definition paths_exist (env : environment) (args : arguments) : bool :=
  path_exists env "check_images.py" && path_exists env (arg_dir args) &&
  path_exists env (arg_dogfile args).

(** ** Notions used to relate what is read to what was printed *)

(** The digits of a decimal numeral, the most significant first. *)
Fixpoint uint_digits (d : Decimal.uint) : list Z :=
  match d with
  | Decimal.Nil => []
  | Decimal.D0 l => 0 :: uint_digits l
  | Decimal.D1 l => 1 :: uint_digits l
  | Decimal.D2 l => 2 :: uint_digits l
  | Decimal.D3 l => 3 :: uint_digits l
  | Decimal.D4 l => 4 :: uint_digits l
  | Decimal.D5 l => 5 :: uint_digits l
  | Decimal.D6 l => 6 :: uint_digits l
  | Decimal.D7 l => 7 :: uint_digits l
  | Decimal.D8 l => 8 :: uint_digits l
  | Decimal.D9 l => 9 :: uint_digits l
  end.

(** ** Notions used to state what [main] does *)

(** A mapping whose every entry one line can have stored. *)
Definition extracted (st : stats) : Prop :=
  forall k v, st !! k = Some v -> entry_written k v.

(** The status line that the loop of [main] prints for a model after its
    run (source lines 297 and 300). *)
Definition status_line (model : string) (output : option string) : string :=
  match output with
  | Some (String _ _) => CHECK_MARK +:+ " " +:+ upper model +:+ " completed"
  | _ => CROSS_MARK +:+ " " +:+ upper model +:+ " failed"
  end.

(** Whether the standard output can encode the status line of a model. *)
Definition status_encodable (env : environment) (args : arguments) (model : string) : bool :=
  stdout_encodes env (status_line model (captured_output env args model)).

(** Whether it can encode the status lines of all the models. *)
Definition loop_encodable (env : environment) (args : arguments) (models : list string)
  : bool :=
  forallb (status_encodable env args) models.

(** The models whose run is started: all of them, or those up to the first
    one whose status line cannot be encoded. *)
Fixpoint started (env : environment) (args : arguments) (models : list string)
  : list string :=
  match models with
  | [] => []
  | model :: rest =>
      model :: (if status_encodable env args model then started env args rest else [])
  end.

(** The commands that [main] runs, in their order, each with its timeout. *)
Definition commands (env : environment) (args : arguments) (models : list string)
  : list (list string * Z) :=
  map (fun model => (command env model (arg_dir args) (arg_dogfile args), 300)) models.

(** An environment for the examples: every path exists, [vgg] prints the
    sample report, [alexnet] exits with status 1 and [resnet] times out; the
    standard output encodes every text. *)
Definition sample_environment : environment :=
  Environment "python3" (fun _ => true)
    (fun cmd =>
       let model := default "" (cmd !! 5%nat) in
       if String.eqb model "vgg" then CompletedProcess 0 sample_report ""
       else if String.eqb model "alexnet" then CompletedProcess 1 "" "boom"
       else TimeoutExpired)
    true (fun _ => true).

(** An environment in which the image directory is missing. *)
Definition bare_environment : environment :=
  Environment "python3" (fun path => String.eqb path "check_images.py")
    (fun _ => TimeoutExpired) true (fun _ => true).

(** The sample environment with a standard output that encodes ASCII only. *)
Definition ascii_environment : environment :=
  Environment (sys_executable sample_environment) (path_exists sample_environment)
    (subprocess_result sample_environment) true (fun _ => false).

Definition empty_world : world := World [] [] [].

(** * Properties *)

#[local] Arguments String.append : simpl nomatch.

(** ** Strings *)

Lemma append_nil_r (s : string) : s +:+ "" = s.
Proof. induction s as [|c s IH]; simpl; [done | by rewrite IH]. Qed.

Lemma append_assoc (a b c : string) : (a +:+ b) +:+ c = a +:+ (b +:+ c).
Proof. induction a as [|x a IH]; simpl; [done | by rewrite IH]. Qed.

Lemma length_append (a b : string) :
  String.length (a +:+ b) = (String.length a + String.length b)%nat.
Proof. induction a as [|x a IH]; simpl; [done | by rewrite IH]. Qed.

Lemma prefix_iff (p s : string) :
  starts_with p s = true <-> exists q, s = p +:+ q.
Proof.
  revert s. induction p as [|c p IH]; intros s; simpl.
  - split; [intros _; by exists s | done].
  - destruct s as [|d s]; [split; [done | by intros [q Hq]] |].
    rewrite andb_true_iff, Ascii.eqb_eq, IH. split.
    + intros [-> [q ->]]. by exists q.
    + intros [q Hq]. inversion Hq; subst. split; [done | by exists q].
Qed.

Lemma contains_iff (m s : string) :
  contains m s = true <-> exists p q, s = p +:+ m +:+ q.
Proof.
  induction s as [|c s IH]; simpl.
  - rewrite prefix_iff. split.
    + intros [q Hq]. by exists "", q.
    + intros [p [q Hq]]. destruct p; [by exists q | done].
  - rewrite orb_true_iff, prefix_iff, IH. split.
    + intros [[q Hq] | [p [q Hq]]].
      * by exists "", q.
      * exists (String c p), q. simpl. by rewrite Hq.
    + intros [p [q Hq]]. destruct p as [|d p]; simpl in Hq.
      * left. by exists q.
      * right. exists p, q. by inversion Hq.
Qed.

(** The first piece of a split starts the text. *)
Lemma split_on_head (c : ascii) (s h : string) (t : list string) :
  split_on c s = h :: t -> exists q, s = h +:+ q.
Proof.
  revert h t. induction s as [|a s IH]; intros h t; simpl.
  - intros [= <- <-]. by exists "".
  - destruct (Ascii.eqb a c).
    + intros [= <- <-]. by exists (String a s).
    + destruct (split_on c s) as [|h' t'] eqn:Hs.
      * intros [= <- <-]. exists s. done.
      * intros [= <- <-]. destruct (IH _ _ eq_refl) as [q Hq].
        exists q. simpl. by rewrite <- Hq.
Qed.

(** A piece of a split is a substring of the whole. *)
Lemma split_on_piece (c : ascii) (s l : string) :
  In l (split_on c s) -> exists p q, s = p +:+ l +:+ q.
Proof.
  revert l. induction s as [|a s IH]; intros l; simpl.
  - intros [<- | []]. by exists "", "".
  - destruct (Ascii.eqb a c) eqn:Hac.
    + intros [<- | Hin].
      * by exists "", (String a s).
      * destruct (IH _ Hin) as [p [q Hq]]. exists (String a p), q. simpl. by rewrite <- Hq.
    + destruct (split_on c s) as [|h t] eqn:Hs.
      * intros [<- | []]. by exists "", s.
      * intros [<- | Hin].
        -- destruct (split_on_head _ _ _ _ Hs) as [q Hq].
           exists "", q. simpl. by rewrite <- Hq.
        -- destruct (IH _ (or_intror Hin)) as [p [q Hq]].
           exists (String a p), q. simpl. by rewrite <- Hq.
Qed.

(** A text that holds a phrase in one of its lines holds the phrase. *)
Lemma contains_line (c : ascii) (m s l : string) :
  In l (split_on c s) -> contains m l = true -> contains m s = true.
Proof.
  intros [p [q ->]]%split_on_piece [p' [q' ->]]%contains_iff.
  apply contains_iff. exists (p +:+ p'), (q' +:+ q).
  by rewrite !append_assoc.
Qed.

(** ** The extractor never raises *)

Lemma try_except_total {A : Type} (body : res A) (handler : exn -> res A) :
  (forall e, exists a, handler e = Ok a) -> exists a, try_except body handler = Ok a.
Proof.
  intros Hh. destruct body as [a|e]; simpl; [by exists a | apply Hh].
Qed.

Lemma count_line_total (key : string) (st : scan_state) (line : string) :
  exists st', count_line key st line = Ok st'.
Proof.
  unfold count_line.
  destruct (split_on ":" line) as [|p0 [|p1 [|p2 t]]]; try by eexists.
  apply try_except_total. intros _. by eexists.
Qed.

Lemma pct_line_total (st : scan_state) (line : string) :
  exists st', pct_line st line = Ok st'.
Proof.
  unfold pct_line.
  destruct (split_on ":" line) as [|p0 [|p1 [|p2 t]]]; try by eexists.
  apply try_except_total. intros _. by eexists.
Qed.

Lemma fmap_total {A B : Type} (f : A -> B) (r : res A) :
  (exists a, r = Ok a) -> exists b, f <$> r = Ok b.
Proof. intros [a ->]. by exists (f a). Qed.

Lemma process_line_total (st : scan_state) (line : string) :
  exists s, process_line st line = Ok s.
Proof.
  unfold process_line.
  repeat match goal with
         | |- context [if ?b then _ else _] => destruct b
         end;
    try (by eexists);
    apply fmap_total; auto using count_line_total, pct_line_total.
Qed.

Lemma scan_lines_total (lines : list string) (st : scan_state) :
  exists m, scan_lines st lines = Ok m.
Proof.
  revert st. induction lines as [|line rest IH]; intros st; simpl.
  - by eexists.
  - destruct (process_line_total st line) as [[st'|st'] ->]; simpl.
    + apply IH.
    + by eexists.
Qed.

(** C9.  [extract_statistics] returns a mapping for every text and raises
    nothing: every line is processed without an exception, the conversions
    that fail being caught inside the count and percentage branches.  Run
    twice on the same text, one after the other, it returns the same mapping
    twice. *)
Theorem extract_statistics_total_deterministic (output_text : string) :
  (exists m : stats,
     extract_statistics output_text = Ok m /\
     (a ← extract_statistics output_text;
      b ← extract_statistics output_text;
      mret (a, b)) = Ok (m, m)) /\
  (forall st line, exists s, process_line st line = Ok s) /\
  (forall key st line, exists st', count_line key st line = Ok st') /\
  (forall st line, exists st', pct_line st line = Ok st').
Proof.
  split_and!.
  - destruct (scan_lines_total (split_on newline output_text) initial_state) as [m Hm].
    exists m. unfold extract_statistics. rewrite Hm. done.
  - apply process_line_total.
  - apply count_line_total.
  - apply pct_line_total.
Qed.

(** ** Outside the results section *)

Lemma process_line_outside (st : scan_state) (line : string) :
  in_results_section st = false ->
  contains SECTION_MARKER line = false ->
  process_line st line =
    Ok (if contains RUNTIME_MARKER line then Stop (runtime_line st line) else Next st).
Proof.
  intros Hout Hm. unfold process_line. rewrite Hm, Hout. simpl.
  by destruct (contains RUNTIME_MARKER line).
Qed.

Lemma runtime_line_empty (st : scan_state) (line : string) :
  st_stats st = ∅ ->
  st_stats (runtime_line st line) = ∅ \/
  exists r, st_stats (runtime_line st line) = {[ "runtime" := VStr r ]}.
Proof.
  intros He. unfold runtime_line.
  destruct (1 <? rfind ": " line + 2); [right | by left].
  eexists. simpl. rewrite He. apply insert_empty.
Qed.

Lemma scan_lines_outside (lines : list string) (st : scan_state) :
  in_results_section st = false ->
  st_stats st = ∅ ->
  Forall (fun line => contains SECTION_MARKER line = false) lines ->
  exists m, scan_lines st lines = Ok m /\
            (m = ∅ \/ exists r, m = {[ "runtime" := VStr r ]}).
Proof.
  intros Hout He Hall. revert st Hout He.
  induction Hall as [|line rest Hline _ IH]; intros st Hout He; simpl.
  - exists (st_stats st). split; [done | by left].
  - rewrite (process_line_outside _ _ Hout Hline).
    destruct (contains RUNTIME_MARKER line); simpl.
    + eexists. split; [done |]. by apply runtime_line_empty.
    + by apply IH.
Qed.

(** C7.  When the section-header phrase occurs nowhere in the text, the
    mapping returned is empty or holds the key [runtime] alone. *)
Theorem extract_statistics_without_marker (output_text : string) :
  contains SECTION_MARKER output_text = false ->
  exists m : stats,
    extract_statistics output_text = Ok m /\
    (m = ∅ \/ exists r, m = {[ "runtime" := VStr r ]}) /\
    (forall k, k ≠ "runtime" -> m !! k = None).
Proof.
  intros Hno.
  destruct (scan_lines_outside (split_on newline output_text) initial_state)
    as [m [Hm Hshape]]; [done | done | |].
  - apply Forall_forall. intros line Hin%list_elem_of_In.
    destruct (contains SECTION_MARKER line) eqn:Hc; [| done].
    by rewrite (contains_line _ _ _ _ Hin Hc) in Hno.
  - exists m. split; [done |]. split; [done |].
    intros k Hk. destruct Hshape as [-> | [r ->]].
    + apply lookup_empty.
    + by apply lookup_singleton_ne.
Qed.

Lemma extract_statistics_without_marker_witness :
  contains SECTION_MARKER (join_lines headless_report_lines) = false /\
  exists m : stats,
    extract_statistics (join_lines headless_report_lines) = Ok m /\
    (m = ∅ \/ exists r, m = {[ "runtime" := VStr r ]}) /\
    (forall k, k ≠ "runtime" -> m !! k = None).
Proof.
  split; [vm_compute; reflexivity |].
  apply extract_statistics_without_marker. vm_compute. reflexivity.
Defined.

(** ** Splitting on a character *)

Lemma contains_single_cons (c a : ascii) (s : string) :
  contains (single c) (String a s) = Ascii.eqb c a || contains (single c) s.
Proof. simpl. by rewrite andb_true_r. Qed.

Lemma split_on_cut (c : ascii) (s : string) :
  split_on c s =
    match cut_first c s with
    | Some (a, b) => a :: split_on c b
    | None => [s]
    end.
Proof.
  induction s as [|a s IH]; simpl; [done |].
  destruct (Ascii.eqb a c); [done |].
  rewrite IH. by destruct (cut_first c s) as [[x y]|].
Qed.

Lemma cut_first_none (c : ascii) (s : string) :
  cut_first c s = None <-> contains (single c) s = false.
Proof.
  induction s as [|a s IH]; [done |].
  rewrite contains_single_cons. simpl. rewrite (Ascii.eqb_sym c a).
  destruct (Ascii.eqb a c); simpl; [done |].
  rewrite <- IH. by destruct (cut_first c s) as [[x y]|].
Qed.


Lemma split_on_length (c : ascii) (s : string) :
  length (split_on c s) = S (count_char c s).
Proof.
  induction s as [|a s IH]; simpl; [done |].
  destruct (Ascii.eqb a c); simpl; [by rewrite IH |].
  destruct (split_on c s); simpl in *; done.
Qed.

Lemma count_char_cut (c : ascii) (s a b : string) :
  cut_first c s = Some (a, b) -> count_char c s = S (count_char c b).
Proof.
  revert a. induction s as [|x s IH]; intros a; simpl; [done |].
  destruct (Ascii.eqb x c); [by intros [= <- <-] |].
  destruct (cut_first c s) as [[u v]|]; simpl; [| done].
  intros [= <- <-]. by apply (IH u).
Qed.

Lemma count_char_zero (c : ascii) (s : string) :
  count_char c s = O <-> contains (single c) s = false.
Proof.
  induction s as [|a s IH]; [done |].
  rewrite contains_single_cons. simpl. rewrite (Ascii.eqb_sym c a).
  destruct (Ascii.eqb a c); simpl; [done | exact IH].
Qed.

(** ** What [strip] keeps and what [int] refuses *)

Lemma lstrip_by_keeps (ws : ascii -> bool) (c : ascii) (s : string) :
  ws c = false ->
  contains (single c) (lstrip_by ws s) = contains (single c) s.
Proof.
  intros Hc. induction s as [|a s IH]; [done |].
  cbn [lstrip_by]. destruct (ws a) eqn:Ha; [| done].
  rewrite IH, contains_single_cons.
  destruct (Ascii.eqb_spec c a) as [->|]; [congruence | done].
Qed.

Lemma rstrip_by_keeps (ws : ascii -> bool) (c : ascii) (s : string) :
  ws c = false ->
  contains (single c) (rstrip_by ws s) = contains (single c) s.
Proof.
  intros Hc. induction s as [|a s IH]; [done |].
  cbn [rstrip_by]. rewrite (contains_single_cons c a s), <- IH.
  destruct (rstrip_by ws s) as [|b r'].
  - destruct (ws a) eqn:Ha.
    + destruct (Ascii.eqb_spec c a) as [->|]; [congruence | done].
    + by rewrite contains_single_cons.
  - by rewrite contains_single_cons.
Qed.

Lemma strip_keeps (c : ascii) (s : string) :
  is_space c = false -> contains (single c) (strip s) = contains (single c) s.
Proof.
  intros Hc. unfold strip. by rewrite lstrip_by_keeps, rstrip_by_keeps.
Qed.

Lemma digit_run_from_chars (c : ascii) (s : string) (b : bool) (ds : list Z) :
  is_digit c = false -> c ≠ "_"%char ->
  digit_run_from b s = Some ds -> contains (single c) s = false.
Proof.
  intros Hd Hu. revert b ds. induction s as [|a s IH]; intros b ds; [done |].
  rewrite contains_single_cons. cbn [digit_run_from]. unfold digit_val.
  destruct (is_digit a) eqn:Ha.
  - destruct (digit_run_from true s) as [ds'|] eqn:Hr; [| done].
    intros _. rewrite (IH _ _ Hr).
    destruct (Ascii.eqb_spec c a) as [->|]; [congruence | done].
  - destruct (Ascii.eqb_spec a "_") as [->|]; [| done].
    destruct b; [| done]. simpl. intros Hr. rewrite (IH _ _ Hr).
    destruct (Ascii.eqb_spec c "_"); done.
Qed.

(** [int] raises on a text that holds a colon. *)
Lemma py_int_colon (s : string) :
  contains ":" s = true -> py_int s = Raise ValueError.
Proof.
  intros Hc. unfold py_int.
  assert (Hs : contains (single ":") (c_strip s) = true).
  { unfold c_strip. by rewrite lstrip_by_keeps, rstrip_by_keeps. }
  destruct (split_sign (c_strip s)) as [neg body] eqn:Hsign.
  assert (Hb : contains (single ":") body = true).
  { unfold split_sign in Hsign. destruct (c_strip s) as [|a r]; [done |].
    rewrite contains_single_cons in Hs.
    destruct (Ascii.eqb_spec a "+") as [->|];
      [by inversion Hsign; subst |].
    destruct (Ascii.eqb_spec a "-") as [->|];
      [by inversion Hsign; subst |].
    inversion Hsign; subst. by rewrite contains_single_cons. }
  destruct (digit_run body) as [ds|] eqn:Hr; [| done].
  apply (digit_run_from_chars ":") in Hr; [| done | done].
  unfold single in *. congruence.
Qed.

(** ** The count branches split on the first colon *)

(** The code splits on every colon and asks for two parts; that is the
    specification's split on the first colon, because a trailing part that
    holds a second colon is no integer. *)
Lemma count_line_first_colon (key : string) (st : scan_state) (line : string) :
  count_line key st line = Ok (spec_count_line key st line).
Proof.
  unfold count_line, spec_count_line. rewrite split_on_cut.
  destruct (cut_first ":" line) as [[a b]|]; [| done].
  rewrite split_on_cut.
  destruct (cut_first ":" b) as [[b1 b2]|] eqn:Hb.
  - assert (Hc : contains ":" (strip b) = true).
    { change ":"%string with (single ":"). rewrite strip_keeps by done.
      destruct (contains (single ":") b) eqn:Hn; [done |].
      apply cut_first_none in Hn. congruence. }
    rewrite (py_int_colon _ Hc).
    rewrite (split_on_cut ":" b2). by destruct (cut_first ":" b2) as [[? ?]|].
  - by destruct (py_int (strip b)).
Qed.

(** ** The loop, line by line *)

Lemma state_after_app (pre rest : list string) (st st' : scan_state) :
  state_after st pre = Ok (Some st') ->
  scan_lines st (pre ++ rest)%list = scan_lines st' rest.
Proof.
  revert st. induction pre as [|line pre IH]; intros st; simpl.
  - by intros [= ->].
  - destruct (process_line st line) as [[st1|st1]|e]; simpl; [apply IH | done | done].
Qed.











(** ** [rfind] and the runtime branch *)

Lemma starts_with_nil (needle : string) :
  needle ≠ "" -> starts_with needle "" = false.
Proof. by destruct needle. Qed.

Lemma rfind_from_absent (needle hay : string) (i last : Z) :
  needle ≠ "" -> contains needle hay = false ->
  rfind_from needle hay i last = last.
Proof.
  intros Hne. revert i last. induction hay as [|a r IH]; intros i last; simpl.
  - by rewrite starts_with_nil.
  - intros [Hp Hr]%orb_false_iff. simpl in Hp. rewrite Hp. by apply IH.
Qed.

(** [rfind_from] finds the occurrence with the longest text before it. *)
Lemma rfind_from_last (needle hay : string) (i last : Z) :
  needle ≠ "" -> contains needle hay = true ->
  exists p q,
    hay = p +:+ needle +:+ q /\
    rfind_from needle hay i last = i + Z.of_nat (String.length p) /\
    forall p' q', hay = p' +:+ needle +:+ q' ->
                  (String.length p' <= String.length p)%nat.
Proof.
  intros Hne. revert i last. induction hay as [|a r IH]; intros i last Hc.
  - simpl in Hc. by rewrite starts_with_nil in Hc.
  - cbn [rfind_from]. destruct (contains needle r) eqn:Hr.
    + destruct (IH (i + 1) (if starts_with needle (String a r) then i else last) eq_refl)
        as [p [q [Hhay [Hfind Hmax]]]].
      exists (String a p), q. split; [simpl; by rewrite <- Hhay |].
      split; [rewrite Hfind; simpl String.length; lia |].
      intros [|b p'] q' Hdec; simpl; [lia |].
      simpl in Hdec. inversion Hdec; subst b.
      specialize (Hmax p' q'). apply Hmax in H1. lia.
    + simpl in Hc. rewrite Hr, orb_false_r in Hc.
      change (match needle with
              | "" => true
              | String a0 p' => Ascii.eqb a0 a && starts_with p' r
              end) with (starts_with needle (String a r)) in Hc.
      rewrite Hc, (rfind_from_absent _ _ _ _ Hne Hr).
      apply prefix_iff in Hc as [q Hq].
      exists "", q. split; [done |]. split; [simpl; lia |].
      intros [|b p'] q' Hdec; simpl; [lia |]. exfalso.
      simpl in Hdec. inversion Hdec; subst.
      assert (contains needle (p' +:+ needle +:+ q') = true) as Habs
        by (apply contains_iff; by exists p', q').
      congruence.
Qed.

Lemma slice_from_app (p q : string) :
  slice_from (String.length p) (p +:+ q) = q.
Proof. induction p as [|a p IH]; simpl; [by destruct q | done]. Qed.

(** What the runtime branch stores: with no [": "] in the line, nothing;
    otherwise what follows the last [": "], trimmed. *)
Lemma runtime_line_last (st : scan_state) (line : string) :
  (contains ": " line = false /\ runtime_line st line = st) \/
  (exists p q,
     line = p +:+ ": " +:+ q /\
     (forall p' q', line = p' +:+ ": " +:+ q' ->
                    (String.length p' <= String.length p)%nat) /\
     runtime_line st line = set_stat st "runtime" (VStr (strip q))).
Proof.
  unfold runtime_line, rfind.
  destruct (contains ": " line) eqn:Hc.
  - right. destruct (rfind_from_last ": " line 0 (-1)) as [p [q [Hl [Hf Hmax]]]];
      [done | done |].
    exists p, q. split; [done |]. split; [done |].
    rewrite Hf. destruct (1 <? _) eqn:Hlt; [| apply Z.ltb_ge in Hlt; lia].
    replace (Z.to_nat (0 + Z.of_nat (String.length p) + 2))
      with (String.length (p +:+ ": ")).
    + by rewrite Hl, <- append_assoc, slice_from_app.
    + rewrite length_append. simpl. lia.
  - left. split; [done |]. by rewrite rfind_from_absent.
Qed.

(** A line that no earlier branch takes and that holds the runtime phrase
    leaves the loop. *)
Lemma process_line_runtime (st : scan_state) (line : string) :
  contains SECTION_MARKER line = false ->
  taken_earlier st line = false ->
  contains RUNTIME_MARKER line = true ->
  process_line st line = Ok (Stop (runtime_line st line)).
Proof.
  intros Hm Ht Hr. unfold process_line, taken_earlier, count_key in *.
  rewrite Hm, Hr.
  destruct (in_results_section st); [| done].
  destruct (contains ":" line); [| by rewrite !andb_false_r].
  simpl in *. apply orb_false_iff in Ht as [Hk ->].
  destruct (contains "N Images" line); [done |].
  destruct (contains "N Dog Images" line); [done |].
  by destruct (contains "N Not-Dog Images" line).
Qed.

(** A line that an earlier branch takes does not leave the loop, whatever
    phrase it holds. *)
Lemma process_line_taken (st : scan_state) (line : string) :
  contains SECTION_MARKER line = false ->
  taken_earlier st line = true ->
  exists st', process_line st line = Ok (Next st').
Proof.
  intros Hm Ht. unfold process_line, taken_earlier, count_key in *.
  rewrite Hm.
  apply andb_true_iff in Ht as [[Hin Hc]%andb_true_iff Hor].
  rewrite Hin, Hc. simpl.
  destruct (contains "N Images" line); simpl;
    [rewrite count_line_first_colon; eexists; reflexivity |].
  destruct (contains "N Dog Images" line); simpl;
    [rewrite count_line_first_colon; eexists; reflexivity |].
  destruct (contains "N Not-Dog Images" line); simpl;
    [rewrite count_line_first_colon; eexists; reflexivity |].
  simpl in Hor. rewrite Hor.
  destruct (pct_line_total st line) as [st' ->]. eexists; reflexivity.
Qed.

(** C2, as amended.  Take the line at which the loop arrives, when it holds
    the runtime phrase and not the section-header phrase.  If no earlier
    branch takes it, it ends the scan: the mapping returned is the one built
    so far, with what follows the last [": "] of the line, trimmed, under
    [runtime] when the line holds a [": "], and the lines after it contribute
    nothing.  If an earlier branch takes it, that branch handles it and the
    scan goes on with the next line. *)
Theorem runtime_line_extraction (output_text : string) (pre post : list string)
    (line : string) (st : scan_state) :
  split_on newline output_text = (pre ++ line :: post)%list ->
  state_after initial_state pre = Ok (Some st) ->
  contains SECTION_MARKER line = false ->
  contains RUNTIME_MARKER line = true ->
  (taken_earlier st line = false ->
   extract_statistics output_text = Ok (st_stats (runtime_line st line)) /\
   ((contains ": " line = false /\ runtime_line st line = st) \/
    (exists p q,
       line = p +:+ ": " +:+ q /\
       (forall p' q', line = p' +:+ ": " +:+ q' ->
                      (String.length p' <= String.length p)%nat) /\
       runtime_line st line = set_stat st "runtime" (VStr (strip q))))) /\
  (taken_earlier st line = true ->
   exists st', process_line st line = Ok (Next st') /\
               extract_statistics output_text = scan_lines st' post).
Proof.
  intros Hsplit Hpre Hm Hr. unfold extract_statistics.
  rewrite Hsplit, (state_after_app _ _ _ _ Hpre). simpl. split.
  - intros Ht. split; [| apply runtime_line_last].
    by rewrite (process_line_runtime _ _ Hm Ht Hr).
  - intros Ht. destruct (process_line_taken _ _ Hm Ht) as [st' Hst'].
    exists st'. by rewrite Hst'.
Qed.

Lemma runtime_line_extraction_witness :
  extract_statistics "** Total Elapsed Runtime: 0:3:15" =
    Ok {[ "runtime" := VStr "0:3:15" ]} /\
  extract_statistics sample_report =
    Ok (<[ "runtime" := VStr "0:3:15" ]>
          (<[ "pct_correct_dogs" := VFloat (S754_finite false 6565403831776051 (-46)) ]>
             (<[ "n_notdogs" := VInt 2 ]>
                (<[ "n_dogs" := VInt 2 ]> {[ "n_images" := VInt 4 ]})))).
Proof.
  split.
  - exact (proj1 (proj1 (runtime_line_extraction "** Total Elapsed Runtime: 0:3:15"
                           [] [] "** Total Elapsed Runtime: 0:3:15" initial_state
                           eq_refl eq_refl eq_refl eq_refl) eq_refl)).
  - refine (eq_trans
              (proj1 (proj1 (runtime_line_extraction sample_report
                        (take 8 sample_lines) (drop 9 sample_lines)
                        "** Total Elapsed Runtime: 0:3:15"
                        (ScanState
                           (<[ "pct_correct_dogs" :=
                                 VFloat (S754_finite false 6565403831776051 (-46)) ]>
                              (<[ "n_notdogs" := VInt 2 ]>
                                 (<[ "n_dogs" := VInt 2 ]> {[ "n_images" := VInt 4 ]})))
                           true)
                        _ _ _ _) _)) _).
    + vm_compute. reflexivity.
    + vm_compute. reflexivity.
    + vm_compute. reflexivity.
    + vm_compute. reflexivity.
    + vm_compute. reflexivity.
    + vm_compute. reflexivity.
Defined.

(** C2, as stated, fails: inside the results section a first line with the
    runtime phrase that also holds a colon and a percent sign is taken by the
    percentage branch; it supplies no runtime and the scan goes on, so that
    the line after it is read. *)
Lemma runtime_line_counterexample :
  extract_statistics
    (join_lines ["Results Summary for CNN Model Architecture";
                 "** Total Elapsed Runtime: 0:3:15 (100% done)";
                 "N Images: 7"])
  = Ok {[ "n_images" := VInt 7 ]}.
Proof. vm_compute. reflexivity. Qed.

(** ** The percentage branch *)


(** With one colon in the line the code does what the specification words;
    with more than one it leaves the mapping alone. *)
Lemma pct_line_colons (st : scan_state) (line : string) :
  pct_line st line =
    Ok (if (count_char ":" line =? 1)%nat then spec_pct_line st line else st).
Proof.
  unfold pct_line, spec_pct_line. rewrite split_on_cut.
  destruct (cut_first ":" line) as [[a b]|] eqn:Hcut.
  - rewrite (count_char_cut _ _ _ _ Hcut), split_on_cut.
    destruct (cut_first ":" b) as [[b1 b2]|] eqn:Hb.
    + rewrite (count_char_cut _ _ _ _ Hb). simpl.
      rewrite (split_on_cut ":" b2). by destruct (cut_first ":" b2) as [[? ?]|].
    + apply cut_first_none, count_char_zero in Hb. rewrite Hb. simpl.
      by destruct (py_float _).
  - apply cut_first_none, count_char_zero in Hcut. by rewrite Hcut.
Qed.




(** ** The order of numbers *)

Lemma ext_ltb_irrefl (x : ext) : ext_ltb x x = false.
Proof. destruct x; simpl; [done | apply Z.ltb_irrefl | done]. Qed.


Lemma ext_ltb_le_trans (x y z : ext) :
  ext_ltb y x = false -> ext_ltb y z = true -> ext_ltb x z = true.
Proof.
  destruct x, y, z; simpl; try done.
  rewrite Z.ltb_ge, !Z.ltb_lt. lia.
Qed.

Lemma ext_ltb_asym (x y : ext) : ext_ltb x y = true -> ext_ltb y x = false.
Proof.
  destruct x, y; simpl; try done.
  rewrite Z.ltb_lt, Z.ltb_ge. lia.
Qed.

Lemma py_gt_number (a b : pyval) :
  is_str a = false -> is_str b = false -> py_gt a b = Ok (gtb a b).
Proof.
  unfold py_gt, gtb.
  destruct a as [za|[sa|sa| |sa ma ea]|ta], b as [zb|[sb|sb| |sb mb eb]|tb]; done.
Qed.

Lemma py_gt_kind (a b : pyval) (r : bool) :
  py_gt a b = Ok r -> is_str a = is_str b.
Proof. by destruct a, b. Qed.


(** ** [max] *)




Lemma gtb_irrefl (a : pyval) : gtb a a = false.
Proof. unfold gtb. destruct (num_ord a); [apply ext_ltb_irrefl | done]. Qed.

Lemma gtb_asym (a b : pyval) : gtb a b = true -> gtb b a = false.
Proof.
  unfold gtb. destruct (num_ord a), (num_ord b); try done. apply ext_ltb_asym.
Qed.

Lemma gtb_below (x y b : pyval) :
  gtb x b = false -> gtb y b = true -> gtb x y = false.
Proof.
  unfold gtb.
  destruct (num_ord x) as [kx|], (num_ord y) as [ky|], (num_ord b) as [kb|]; try done.
  intros Hx Hy. apply ext_ltb_asym. by apply (ext_ltb_le_trans kx kb ky).
Qed.

(** Whatever the keys are, when the loop of [max] returns an item with a
    number for key, no item has a greater key. *)
Lemma max_loop_no_greater {A : Type} (f : A -> pyval) (rest seen : list A) (best w : A) :
  is_str (f best) = false ->
  max_loop f best (f best) rest = Ok w ->
  (forall x, In x seen -> gtb (f x) (f best) = false) ->
  forall x, In x seen \/ x = best \/ In x rest -> gtb (f x) (f w) = false.
Proof.
  revert seen best. induction rest as [|y rest IH]; intros seen best Hnum Hw Hseen x Hx.
  - simpl in Hw. injection Hw as <-.
    destruct Hx as [Hx | [-> | []]]; [by apply Hseen | apply gtb_irrefl].
  - cbn [max_loop] in Hw.
    destruct (py_gt (f y) (f best)) as [b|e] eqn:Hcmp; [| done].
    pose proof (py_gt_kind _ _ _ Hcmp) as Hkind. rewrite Hnum in Hkind.
    rewrite (py_gt_number _ _ Hkind Hnum) in Hcmp. injection Hcmp as Hb.
    simpl in Hw. destruct b.
    + apply (IH (best :: seen) y Hkind Hw).
      * intros u [<- | Hu]; [by apply gtb_asym |].
        by apply (gtb_below (f u) (f y) (f best)); [apply Hseen |].
      * simpl in Hx. simpl. intuition auto.
    + apply (IH (y :: seen) best Hnum Hw).
      * intros u [<- | Hu]; [done | by apply Hseen].
      * simpl in Hx. simpl. intuition auto.
Qed.

Lemma max_loop_in {A : Type} (f : A -> pyval) (rest : list A) (best w : A) (bk : pyval) :
  max_loop f best bk rest = Ok w -> w = best \/ In w rest.
Proof.
  revert best bk. induction rest as [|y rest IH]; intros best bk; simpl.
  - intros [= <-]. by left.
  - destruct (py_gt (f y) bk) as [[|]|e]; simpl; [| | done]; intros Hw.
    + destruct (IH _ _ Hw) as [-> | Hin]; auto.
    + destruct (IH _ _ Hw) as [-> | Hin]; auto.
Qed.

(** When the loop of [max] returns, all keys are texts or all are numbers:
    comparing a text with a number raises. *)
Lemma max_loop_kinds {A : Type} (f : A -> pyval) (rest : list A) (best w : A) :
  max_loop f best (f best) rest = Ok w ->
  forall u, In u rest -> is_str (f u) = is_str (f best).
Proof.
  revert best. induction rest as [|y rest IH]; intros best Hw u Hu; [done |].
  cbn [max_loop] in Hw.
  destruct (py_gt (f y) (f best)) as [b|e] eqn:Hcmp; [| done].
  apply py_gt_kind in Hcmp. simpl in Hw.
  destruct Hu as [<- | Hu]; [done |].
  destruct b; [rewrite <- Hcmp |]; by apply (IH _ Hw).
Qed.

(** A winner without result has the value zero, and then nobody is above
    zero. *)
Lemma py_max_absent (key : string) (all_results : results) (best : string * run_result) :
  py_max (metric_of key) all_results = Ok best ->
  absent_only_without_positive key all_results best.
Proof.
  intros Hmax Habs item Hin.
  destruct all_results as [|first rest]; [done |]. simpl in Hmax.
  assert (Hbest : metric_of key best = VInt 0)
    by (unfold metric_of; by rewrite Habs).
  pose proof (max_loop_kinds _ _ _ _ Hmax) as Hkinds.
  assert (Hfirst : is_str (metric_of key first) = false).
  { destruct (max_loop_in _ _ _ _ _ Hmax) as [<- | Hw]; [by rewrite Hbest |].
    by rewrite <- (Hkinds _ Hw), Hbest. }
  assert (Hitem : is_str (metric_of key item) = false).
  { destruct Hin as [<- | Hin]; [done |]. by rewrite (Hkinds _ Hin). }
  rewrite (py_gt_number _ (VInt 0) Hitem eq_refl), <- Hbest. f_equal.
  apply (max_loop_no_greater _ rest [] first best Hfirst Hmax); [intros ? [] |].
  destruct Hin as [<- | Hin]; auto.
Qed.

(** ** The analyzer *)

Lemma safe_get_absent (key : string) : safe_get None key = VInt 0.
Proof. done. Qed.




(** What a returned analysis was computed from. *)
Lemma analyze_results_inv (all_results : results) (a : analysis) :
  analyze_results all_results = Ok a ->
  py_max (metric_of "pct_correct_dogs") all_results = Ok (best_dogs a) /\
  py_max (metric_of "pct_correct_breed") all_results = Ok (best_breeds a) /\
  py_max (metric_of "pct_correct_notdogs") all_results = Ok (best_notdogs a) /\
  py_max (metric_of "pct_match") all_results = Ok (best_overall a) /\
  recommended a = upper (fst (best_overall a)) /\
  last (report a) = Some (nl +:+ "RECOMMENDED MODEL: " +:+ upper (fst (best_overall a))).
Proof.
  unfold analyze_results.
  destruct (py_max (metric_of "pct_correct_dogs") all_results) as [bd|]; [| done].
  destruct (py_max (metric_of "pct_correct_breed") all_results) as [bb|]; [| done].
  destruct (py_max (metric_of "pct_correct_notdogs") all_results) as [bn|]; [| done].
  destruct (py_max (metric_of "pct_match") all_results) as [bo|]; [| done].
  simpl.
  destruct (best_line _ "pct_correct_dogs" bd); [| done].
  destruct (best_line _ "pct_correct_breed" bb); [| done].
  destruct (best_line _ "pct_correct_notdogs" bn); [| done].
  destruct (best_line _ "pct_match" bo); [| done].
  simpl. by intros [= <-].
Qed.




Lemma max_loop_zeros {A : Type} (f : A -> pyval) (rest : list A) (best : A) :
  f best = VInt 0 -> (forall x, In x rest -> f x = VInt 0) ->
  max_loop f best (f best) rest = Ok best.
Proof.
  intros Hb. induction rest as [|y rest IH]; intros Hz; [done |].
  cbn [max_loop]. rewrite (Hz y), Hb by (by left). simpl.
  rewrite <- Hb. apply IH. intros x Hx. apply Hz. by right.
Qed.

(** C4, as amended.  A model without result wins a metric only when no
    model's value for that metric is above zero; when every result is absent
    the first model of the collection wins each metric. *)
Theorem absent_result_selection (all_results : results) :
  (forall a, analyze_results all_results = Ok a ->
     absent_only_without_positive "pct_correct_dogs" all_results (best_dogs a) /\
     absent_only_without_positive "pct_correct_breed" all_results (best_breeds a) /\
     absent_only_without_positive "pct_correct_notdogs" all_results (best_notdogs a) /\
     absent_only_without_positive "pct_match" all_results (best_overall a)) /\
  (forall first rest,
     all_results = first :: rest ->
     (forall item, In item all_results -> snd item = None) ->
     exists a, analyze_results all_results = Ok a /\
               best_dogs a = first /\ best_breeds a = first /\
               best_notdogs a = first /\ best_overall a = first).
Proof.
  split.
  - intros a (Hd & Hb & Hn & Ho & _)%analyze_results_inv.
    repeat split; by apply py_max_absent.
  - intros first rest -> Habs.
    assert (Hz : forall key item, In item (first :: rest) -> metric_of key item = VInt 0).
    { intros key item Hin. unfold metric_of. by rewrite (Habs item Hin). }
    assert (Hmax : forall key, py_max (metric_of key) (first :: rest) = Ok first).
    { intros key. simpl. apply max_loop_zeros.
      - apply Hz. by left.
      - intros x Hx. apply Hz. by right. }
    unfold analyze_results. rewrite !Hmax. simpl.
    unfold best_line. rewrite !(Habs first) by (by left). simpl.
    eexists. split; [reflexivity |]. done.
Qed.

Lemma absent_result_selection_witness :
  (exists a, analyze_results tie_results = Ok a /\
             best_dogs a = ("vgg", None) /\
             absent_only_without_positive "pct_correct_dogs" tie_results (best_dogs a)) /\
  (exists a, analyze_results [("vgg", None); ("alexnet", None); ("resnet", None)] = Ok a /\
             best_dogs a = ("vgg", None) /\ best_breeds a = ("vgg", None) /\
             best_notdogs a = ("vgg", None) /\ best_overall a = ("vgg", None)).
Proof.
  split.
  - eexists. split; [vm_compute; reflexivity |]. split; [reflexivity |].
    refine (proj1 (proj1 (absent_result_selection tie_results) _ _)).
    vm_compute. reflexivity.
  - apply (proj2 (absent_result_selection _) _ _ eq_refl).
    intros item [<- | [<- | [<- | []]]]; reflexivity.
Defined.

(** C4, as stated, fails: [vgg] has no result, the two other runs succeed
    with a match rate of zero, and [vgg], the first of the three that tie at
    zero, is the winner. *)
Lemma absent_result_counterexample :
  (rs ← collect_results
          (run_with None (Some "pct match: 0.0%") (Some "pct match: 0.0%")) MODELS [];
   a ← analyze_results rs;
   mret (best_overall a, map (fun item => truthy (snd item)) rs))
  = Ok (("vgg", None), [false; true; true]).
Proof. vm_compute. reflexivity. Qed.

(** ** The console reporter *)

Lemma string_of_uint_digits (d : Decimal.uint) :
  all_digits (NilEmpty.string_of_uint d) = true.
Proof. induction d; simpl; done. Qed.

Lemma str_int_digits (z : Z) :
  0 <= z -> all_digits (str_int z) = true /\ str_int z <> "".
Proof.
  intros Hz. unfold str_int. destruct z as [|p|p]; [done | | lia].
  simpl. unfold NilZero.string_of_uint.
  destruct (Pos.to_uint p) eqn:Hp; try done;
    rewrite <- Hp; split; try apply string_of_uint_digits;
    rewrite Hp; done.
Qed.

Lemma str_int_digit (r : Z) :
  0 <= r < 10 -> exists d, str_int r = String d "" /\ is_digit d = true.
Proof.
  intros Hr.
  assert (r = 0 \/ r = 1 \/ r = 2 \/ r = 3 \/ r = 4 \/
          r = 5 \/ r = 6 \/ r = 7 \/ r = 8 \/ r = 9) as Hcases by lia.
  repeat destruct Hcases as [-> | Hcases]; try subst r;
    eexists; split; reflexivity.
Qed.

Lemma round_half_even_nonneg (num den : Z) :
  0 <= num -> 0 < den -> 0 <= round_half_even num den.
Proof.
  intros Hn Hd. unfold round_half_even.
  assert (0 <= num / den) by (apply Z.div_pos; lia).
  destruct (2 * (num mod den) ?= den); [destruct (Z.even _) | |]; lia.
Qed.

Lemma tenths_nonneg (m : positive) (e : Z) : 0 <= tenths m e.
Proof.
  unfold tenths. destruct (0 <=? e) eqn:He.
  - apply Z.leb_le in He.
    assert (0 < 2 ^ e) by (apply Z.pow_pos_nonneg; lia). nia.
  - apply Z.leb_gt in He. apply round_half_even_nonneg; [lia |].
    apply Z.pow_pos_nonneg; lia.
Qed.

Lemma fixed1_one_decimal (neg : bool) (t : Z) :
  0 <= t -> one_decimal (fixed1 neg t +:+ "%").
Proof.
  intros Ht. unfold fixed1.
  destruct (str_int_digits (t / 10)) as [Hd Hne]; [apply Z.div_pos; lia |].
  destruct (str_int_digit (t mod 10)) as [d [Hs Hdig]];
    [apply Z.mod_pos_bound; lia |].
  exists (if neg then "-" else ""), (str_int (t / 10)), d.
  split; [| split; [destruct neg; auto | done]].
  rewrite Hs, !append_assoc. done.
Qed.

Lemma metric_cell_finite (f : spec_float) :
  is_finite f = true -> one_decimal (metric_cell (VFloat f)).
Proof.
  destruct f as [s|s| |s m e]; try done; intros _; simpl.
  - by apply fixed1_one_decimal.
  - apply fixed1_one_decimal, tenths_nonneg.
Qed.

(** C8, as amended.  The console table prints, after its five heading
    lines, one line per model in the order of the collection.  The line of a
    model without result holds [ERROR] in the four metric columns; in the line
    of a model with a non-empty result, a metric that is a finite float is
    printed with exactly one fractional digit. *)
Theorem console_table_rows (all_results : results) (i : nat) (model : string)
    (r : run_result) :
  all_results !! i = Some (model, r) ->
  create_console_results_table all_results !! (5 + i)%nat
    = Some (format_row (console_cells model r)) /\
  (r = None ->
   console_cells model r = ConsoleRow (upper model) "ERROR" "ERROR" "ERROR" "ERROR") /\
  (forall st key col f,
     r = Some st -> st <> ∅ ->
     In (key, col) CONSOLE_COLUMNS ->
     st !! key = Some (VFloat f) -> is_finite f = true ->
     one_decimal (col (console_cells model r))).
Proof.
  intros Hi. split_and!.
  - unfold create_console_results_table.
    rewrite lookup_app_r by (simpl; lia).
    replace (5 + i - _)%nat with i by (simpl; lia).
    by rewrite list_lookup_fmap, Hi.
  - by intros ->.
  - intros st key col f -> Hne Hcol Hkey Hfin.
    unfold console_cells, truthy. rewrite bool_decide_eq_false_2 by done. simpl.
    destruct Hcol as [[= <- <-] | [[= <- <-] | [[= <- <-] | [[= <- <-] | []]]]];
      simpl; unfold get_or; rewrite Hkey; by apply metric_cell_finite.
Qed.

Lemma console_table_rows_witness :
  create_console_results_table tie_results !! 5%nat
    = Some "VGG        ERROR        ERROR        ERROR        ERROR       " /\
  create_console_results_table scenario_results !! 7%nat
    = Some "RESNET     N/A          N/A          N/A          93.3%       " /\
  one_decimal "93.3%".
Proof.
  split; [| split].
  - exact (proj1 (console_table_rows tie_results 0 "vgg" None eq_refl)).
  - exact (proj1 (console_table_rows scenario_results 2 "resnet" _ eq_refl)).
  - refine (proj2 (proj2 (console_table_rows scenario_results 2 "resnet" _ eq_refl))
              _ "pct_match" col_match _ eq_refl _ _ eq_refl eq_refl).
    + vm_compute. discriminate.
    + simpl. auto.
Defined.

(** C8, as stated, fails for a float that is not finite: the report line
    [pct match: inf%] is stored as the float infinity, which [.1f] prints
    without a fractional digit. *)
Lemma console_table_counterexample :
  (rs ← collect_results (run_with (Some "pct match: inf%") None None) MODELS [];
   mret (create_console_results_table rs !! 5%nat))
  = Ok (Some "VGG        N/A          N/A          N/A          inf%        ").
Proof. vm_compute. reflexivity. Qed.

(** ** The visual reporter *)

Section VisualFacts.

Variable float_repr : spec_float -> string.

Lemma pct_text_inv (st : stats) (key text : string) :
  pct_text st key = Ok text -> exists v, text = v +:+ "%".
Proof.
  unfold pct_text. destruct (format_1f _) as [v|]; [| done].
  intros [= <-]. by exists v.
Qed.

Lemma visual_row_display (all_results : results) (model : string) (row : list string) :
  visual_row float_repr all_results model = Ok row ->
  display_row all_results model row.
Proof.
  unfold visual_row, display_row, without_result.
  destruct (dict_get (lower model) all_results) as [r|].
  - destruct (truthy r) eqn:Ht.
    + destruct (pct_text _ "pct_correct_notdogs") as [a|]; [| done].
      destruct (pct_text _ "pct_correct_dogs") as [b|]; [| done].
      destruct (pct_text _ "pct_correct_breed") as [c|]; [| done].
      destruct (pct_text _ "pct_match") as [d|]; [| done].
      simpl. intros [= <-]. eexists. by split_and!.
    + intros [= <-]. eexists. by split_and!.
  - intros [= <-]. eexists. by split_and!.
Qed.

Lemma visual_rows_display (all_results : results) (models : list string)
    (rows : list (list string)) :
  visual_rows float_repr all_results models = Ok rows ->
  Forall2 (display_row all_results) models rows.
Proof.
  revert rows. induction models as [|model models IH]; intros rows; simpl.
  - intros [= <-]. constructor.
  - destruct (visual_row float_repr all_results model) as [row|] eqn:Hrow; [| done].
    destruct (visual_rows float_repr all_results models) as [rows'|]; [| done].
    simpl. intros [= <-]. constructor; [by apply visual_row_display | by apply IH].
Qed.

Lemma visual_row_total (all_results : results) (model : string) :
  (forall key st, In key METRICS ->
                  dict_get (lower model) all_results = Some (Some st) ->
                  exists text, format_1f (get_or st key (VInt 0)) = Ok text) ->
  exists row, visual_row float_repr all_results model = Ok row.
Proof.
  intros Hp. unfold visual_row.
  destruct (dict_get (lower model) all_results) as [[st|]|]; try by eexists.
  destruct (truthy (Some st)); [| by eexists]. simpl. unfold pct_text.
  destruct (Hp "pct_correct_notdogs" st) as [a ->]; [simpl; auto | done |].
  destruct (Hp "pct_correct_dogs" st) as [b ->]; [simpl; auto | done |].
  destruct (Hp "pct_correct_breed" st) as [c ->]; [simpl; auto | done |].
  destruct (Hp "pct_match" st) as [d ->]; [simpl; auto 6 | done |].
  by eexists.
Qed.

Lemma visual_rows_total (all_results : results) (models : list string) :
  (forall model key st, In model models -> In key METRICS ->
                        dict_get (lower model) all_results = Some (Some st) ->
                        exists text, format_1f (get_or st key (VInt 0)) = Ok text) ->
  exists rows, visual_rows float_repr all_results models = Ok rows.
Proof.
  induction models as [|model models IH]; intros Hp; simpl; [by eexists |].
  destruct (visual_row_total all_results model) as [row ->].
  { intros key st. apply Hp. by left. }
  destruct IH as [rows ->].
  { intros m key st Hm. apply Hp. by right. }
  by eexists.
Qed.

#[local] Arguments visual_rows : simpl never.

(** C5, as amended.  Whenever the visual reporter saves a figure, the rows
    of its detailed table are those of ResNet, AlexNet and VGG in this order,
    each the model's name and five cells, and the five cells of a model that
    is missing from the collection, or whose result is absent or empty, all
    read [ERROR].  A figure is saved when the plotting library is there, the
    first result is not empty and the metrics can be printed. *)
Theorem visual_table_rows (all_results : results) :
  (forall out fig,
     create_visual_results_table float_repr true all_results = Ok (out, Some fig) ->
     Forall2 (display_row all_results) ["ResNet"; "AlexNet"; "VGG"] (table_data fig)) /\
  (forall model first rest,
     all_results = (model, first) :: rest -> truthy first = true ->
     printable all_results ->
     exists out fig,
       create_visual_results_table float_repr true all_results = Ok (out, Some fig)).
Proof.
  split.
  - intros out fig. unfold create_visual_results_table. simpl.
    destruct all_results as [|[model first] rest]; [done |].
    destruct (truthy first); simpl; [| done].
    destruct (visual_rows float_repr _ DISPLAY_MODELS) as [rows|] eqn:Hrows; [| done].
    simpl. intros [= _ <-]. simpl. by apply visual_rows_display.
  - intros model first rest -> Ht Hp.
    unfold create_visual_results_table. simpl. rewrite Ht. simpl.
    destruct (visual_rows_total ((model, first) :: rest) DISPLAY_MODELS) as [rows ->];
      [exact Hp |].
    simpl. by eexists _, _.
Qed.

(** The collection that [main] hands over holds the three models in the
    order in which they were run. *)
Lemma collect_results_order (run : string -> option string) :
  exists r1 r2 r3,
    collect_results run MODELS [] = Ok [("vgg", r1); ("alexnet", r2); ("resnet", r3)].
Proof.
  unfold MODELS. cbn [collect_results].
  assert (Hex : forall t, exists st, extract_statistics t = Ok st).
  { intros t. apply scan_lines_total. }
  destruct (run "vgg") as [[|c1 t1]|];
    [| destruct (Hex (String c1 t1)) as [s1 ->] |];
    (destruct (run "alexnet") as [[|c2 t2]|];
     [| destruct (Hex (String c2 t2)) as [s2 ->] |];
     (destruct (run "resnet") as [[|c3 t3]|];
      [| destruct (Hex (String c3 t3)) as [s3 ->] |];
      simpl; by eexists _, _, _)).
Qed.

(** C10, as amended.  The visual reporter reads the first entry of the
    collection, which under [main] is the one of [vgg].  When that result is
    absent or empty no figure is saved, whatever the later results are: with
    the plotting library there the line printed is
    [No valid results to display], without it the line of the failed import.
    When the first result is not empty, the library is there and the metrics
    can be printed, a figure is saved, and the three counts of the summary
    of a saved figure are those of the first result, zero for a missing
    one. *)
Theorem visual_first_result (all_results : results) (model : string)
    (first : run_result) (rest : results) :
  all_results = (model, first) :: rest ->
  (first = None \/ first = Some ∅ ->
   create_visual_results_table float_repr true all_results
     = Ok (["No valid results to display"], None) /\
   create_visual_results_table float_repr false all_results
     = Ok (["Matplotlib not available. Skipping visual table creation."], None)) /\
  (forall st,
     first = Some st -> st <> ∅ -> printable all_results ->
     exists out fig,
       create_visual_results_table float_repr true all_results = Ok (out, Some fig) /\
       summary_data fig =
         [["# Total Images"; py_str float_repr (get_or st "n_images" (VInt 0))];
          ["# Dog Images"; py_str float_repr (get_or st "n_dogs" (VInt 0))];
          ["# Not-a-Dog Images"; py_str float_repr (get_or st "n_notdogs" (VInt 0))]]) /\
  (forall available out fig,
     create_visual_results_table float_repr available all_results = Ok (out, Some fig) ->
     available = true /\
     exists st,
       first = Some st /\ st <> ∅ /\
       summary_data fig =
         [["# Total Images"; py_str float_repr (get_or st "n_images" (VInt 0))];
          ["# Dog Images"; py_str float_repr (get_or st "n_dogs" (VInt 0))];
          ["# Not-a-Dog Images"; py_str float_repr (get_or st "n_notdogs" (VInt 0))]]) /\
  (forall run, exists r1 r2 r3,
     collect_results run MODELS [] = Ok [("vgg", r1); ("alexnet", r2); ("resnet", r3)]).
Proof.
  intros ->. split_and!.
  - intros Hfirst.
    assert (Ht : truthy first = false).
    { destruct Hfirst as [-> | ->]; [done |]. simpl. by rewrite bool_decide_eq_true_2. }
    split; [| done]. unfold create_visual_results_table. simpl. by rewrite Ht.
  - intros st -> Hne Hp. unfold create_visual_results_table. simpl.
    rewrite bool_decide_eq_false_2 by done. simpl.
    destruct (visual_rows_total ((model, Some st) :: rest) DISPLAY_MODELS Hp)
      as [rows ->].
    simpl. by eexists _, _.
  - intros available out fig. unfold create_visual_results_table.
    destruct available; simpl; [| done].
    destruct (truthy first) eqn:Ht; simpl; [| done].
    destruct (visual_rows float_repr _ DISPLAY_MODELS) as [rows|]; [| done].
    simpl. intros [= _ <-]. simpl. split; [done |].
    destruct first as [st|]; [| done]. exists st. split; [done |]. split; [| done].
    simpl in Ht. apply negb_true_iff in Ht. by apply bool_decide_eq_false in Ht.
  - apply collect_results_order.
Qed.

End VisualFacts.

Lemma visual_table_rows_witness :
  exists out fig,
    create_visual_results_table (fun _ => "") true partial_results = Ok (out, Some fig) /\
    Forall2 (display_row partial_results) ["ResNet"; "AlexNet"; "VGG"] (table_data fig) /\
    table_data fig =
      [["ResNet"; "ERROR"; "ERROR"; "ERROR"; "ERROR"; "ERROR"];
       ["AlexNet"; "ERROR"; "ERROR"; "ERROR"; "ERROR"; "ERROR"];
       ["VGG"; "0.0%"; "0.0%"; "0.0%"; "80.0%"; "0:0:0"]].
Proof.
  destruct (proj2 (visual_table_rows (fun _ => "") partial_results)
              "vgg" _ _ eq_refl eq_refl) as [out [fig Hfig]].
  - intros model key st Hm Hk Hget. simpl in Hm, Hk.
    destruct Hm as [<- | [<- | [<- | []]]]; try discriminate Hget.
    injection Hget as <-.
    destruct Hk as [<- | [<- | [<- | [<- | []]]]]; eexists; vm_compute; reflexivity.
  - exists out, fig. split; [exact Hfig |]. split.
    + exact (proj1 (visual_table_rows (fun _ => "") partial_results) out fig Hfig).
    + vm_compute in Hfig. injection Hfig as _ <-. reflexivity.
Defined.

Lemma visual_first_result_witness :
  create_visual_results_table (fun _ => "") true tie_results
    = Ok (["No valid results to display"], None) /\
  exists out fig,
    create_visual_results_table (fun _ => "") true
      [("vgg", Some (<[ "n_dogs" := VInt 2 ]> {[ "n_images" := VInt 4 ]}));
       ("alexnet", None)]
    = Ok (out, Some fig) /\
    summary_data fig =
      [["# Total Images"; "4"]; ["# Dog Images"; "2"]; ["# Not-a-Dog Images"; "0"]].
Proof.
  split.
  - exact (proj1 (proj1 (visual_first_result (fun _ => "") tie_results "vgg" None _
                           eq_refl) (or_introl eq_refl))).
  - destruct (proj1 (proj2 (visual_first_result (fun _ => "")
                              [("vgg", Some (<[ "n_dogs" := VInt 2 ]>
                                               {[ "n_images" := VInt 4 ]}));
                               ("alexnet", None)] "vgg" _ _ eq_refl))
                _ eq_refl) as (out & fig & Hfig & Hsum).
    + intros Heq.
      assert (Hl := f_equal (fun m : stats => m !! "n_images") Heq).
      vm_compute in Hl. discriminate Hl.
    + intros model key st Hm Hk Hget. simpl in Hm, Hk.
      destruct Hm as [<- | [<- | [<- | []]]]; try discriminate Hget.
      injection Hget as <-.
      destruct Hk as [<- | [<- | [<- | [<- | []]]]]; eexists; vm_compute; reflexivity.
    + exists out, fig. split; [exact Hfig |]. rewrite Hsum. vm_compute. reflexivity.
Defined.

(** C10, as stated, fails when the plotting library cannot be imported: with
    the first result absent the line printed is the one of the import, not
    [No valid results to display]. *)
Lemma visual_first_result_counterexample :
  create_visual_results_table (fun _ => "") false tie_results
  = Ok (["Matplotlib not available. Skipping visual table creation."], None).
Proof. vm_compute. reflexivity. Qed.

(** C5, as stated, fails on the collections for which no figure is drawn.
    With the first result absent the reporter returns before it builds any
    row, though two models have results; with a text under a metric of the
    first model the call raises, and the two models that are missing from
    the collection get no row; without the plotting library there is no
    table at all. *)
Lemma visual_table_counterexample :
  snd <$> create_visual_results_table (fun _ => "") true tie_results = Ok None /\
  create_visual_results_table (fun _ => "") true
    [("vgg", Some {[ "pct_match" := VStr "n/a" ]})] = Raise ValueError /\
  snd <$> create_visual_results_table (fun _ => "") false partial_results = Ok None.
Proof. split_and!; vm_compute; reflexivity. Qed.

(** ** The workflow on three successful runs *)

(** Three runs succeed with the match rates 80.0, 90.0 and 93.3: the console
    table lists the three models in the order of the runs, each rate with one
    fractional digit, and the analyzer recommends resnet. *)
Theorem end_to_end_scenario :
  (rs ← collect_results
          (run_with (Some "pct match: 80.0%") (Some "pct match: 90.0%")
                    (Some "pct match: 93.3%")) MODELS [];
   a ← analyze_results rs;
   mret (drop 5 (create_console_results_table rs), recommended a))
  = Ok (["VGG        N/A          N/A          N/A          80.0%       ";
         "ALEXNET    N/A          N/A          N/A          90.0%       ";
         "RESNET     N/A          N/A          N/A          93.3%       "],
        "RESNET").
Proof. vm_compute. reflexivity. Qed.

(** ** What the loop can store *)

Lemma contains_single_app (c : ascii) (a b : string) :
  contains (single c) (a +:+ b) = contains (single c) a || contains (single c) b.
Proof.
  induction a as [|x a IH]; [done |].
  change (String x a +:+ b) with (String x (a +:+ b)).
  by rewrite !contains_single_cons, IH, orb_assoc.
Qed.

Lemma replace_char_gone (c : ascii) (new s : string) :
  contains (single c) new = false ->
  contains (single c) (replace_char c new s) = false.
Proof.
  intros Hnew. induction s as [|a s IH]; [done |]. cbn [replace_char].
  destruct (Ascii.eqb a c) eqn:E.
  - by rewrite contains_single_app, Hnew, IH.
  - rewrite contains_single_cons, IH, Ascii.eqb_sym, E. done.
Qed.

Lemma replace_char_keeps (c d : ascii) (new s : string) :
  c <> d -> contains (single c) new = false ->
  contains (single c) (replace_char d new s) = contains (single c) s.
Proof.
  intros Hcd Hnew. induction s as [|a s IH]; [done |]. cbn [replace_char].
  destruct (Ascii.eqb a d) eqn:E.
  - apply Ascii.eqb_eq in E as ->.
    rewrite contains_single_app, Hnew, IH, contains_single_cons.
    by apply Ascii.eqb_neq in Hcd as ->.
  - by rewrite !contains_single_cons, IH.
Qed.

Lemma map_chars_keeps (f : ascii -> ascii) (c : ascii) (s : string) :
  (forall x, Ascii.eqb c (f x) = Ascii.eqb c x) ->
  contains (single c) (map_chars f s) = contains (single c) s.
Proof.
  intros Hf. induction s as [|a s IH]; [done |]. simpl map_chars.
  by rewrite !contains_single_cons, IH, Hf.
Qed.

Lemma lower_char_idem (c : ascii) : lower_char (lower_char c) = lower_char c.
Proof. by destruct c as [[] [] [] [] [] [] [] []]. Qed.

Lemma lower_idem (s : string) : lower (lower s) = lower s.
Proof.
  induction s as [|a s IH]; [done |].
  unfold lower in *. simpl. by rewrite lower_char_idem, IH.
Qed.

Lemma lower_char_keeps_space (x : ascii) : Ascii.eqb " " (lower_char x) = Ascii.eqb " " x.
Proof. by destruct x as [[] [] [] [] [] [] [] []]. Qed.

Lemma lower_char_keeps_colon (x : ascii) : Ascii.eqb ":" (lower_char x) = Ascii.eqb ":" x.
Proof. by destruct x as [[] [] [] [] [] [] [] []]. Qed.

Lemma split_on_free (c : ascii) (s l : string) :
  In l (split_on c s) -> contains (single c) l = false.
Proof.
  revert l. induction s as [|a s IH]; intros l; simpl.
  - by intros [<- | []].
  - destruct (Ascii.eqb a c) eqn:E.
    + intros [<- | Hin]; [done | by apply IH].
    + destruct (split_on c s) as [|h t].
      * intros [<- | []]. rewrite contains_single_cons, Ascii.eqb_sym, E. done.
      * intros [<- | Hin].
        -- rewrite contains_single_cons, Ascii.eqb_sym, E. apply IH. by left.
        -- apply IH. by right.
Qed.

(** A trimmed text is a part of the text. *)
Lemma lstrip_by_part (ws : ascii -> bool) (s : string) :
  exists a, s = a +:+ lstrip_by ws s.
Proof.
  induction s as [|c s [a IH]]; [by exists "" |]. simpl.
  destruct (ws c); [| by exists ""].
  exists (String c a). simpl. by rewrite <- IH.
Qed.

Lemma rstrip_by_part (ws : ascii -> bool) (s : string) :
  exists b, s = rstrip_by ws s +:+ b.
Proof.
  induction s as [|c s [b IH]]; [by exists "" |]. simpl.
  destruct (rstrip_by ws s) as [|x r] eqn:E.
  - destruct (ws c); [by exists (String c s) |].
    exists s. done.
  - exists b. simpl in *. by f_equal.
Qed.

Lemma contains_strip (m s : string) :
  contains m (strip s) = true -> contains m s = true.
Proof.
  intros (p & q & H)%contains_iff. apply contains_iff. unfold strip in H.
  destruct (rstrip_by_part is_space s) as [b Hb].
  destruct (lstrip_by_part is_space (rstrip_by is_space s)) as [a Ha].
  exists (a +:+ p), (q +:+ b).
  rewrite Hb at 1. rewrite Ha at 1. rewrite H.
  by rewrite !append_assoc.
Qed.

Lemma contains_colon_space (s : string) :
  contains ": " s = true -> contains ":" s = true.
Proof.
  intros (p & q & ->)%contains_iff. apply contains_iff.
  exists p, (" " +:+ q). done.
Qed.

Lemma count_line_written (key : string) (st st' : scan_state) (line : string) :
  count_line key st line = Ok st' ->
  st' = st \/ exists z, st' = set_stat st key (VInt z).
Proof.
  unfold count_line. intros H.
  destruct (split_on ":" line) as [|p0 [|p1 [|p2 t]]]; simpl in H;
    try (injection H as <-; by left).
  destruct (py_int (strip p1)) as [z|e]; simpl in H; injection H as <-.
  - right. by exists z.
  - by left.
Qed.

Lemma pct_line_written (st st' : scan_state) (line : string) :
  pct_line st line = Ok st' ->
  st' = st \/ exists k v, entry_written k v /\ st' = set_stat st k v.
Proof.
  unfold pct_line. intros H.
  destruct (split_on ":" line) as [|p0 [|p1 [|p2 t]]] eqn:Hs; simpl in H;
    try (injection H as <-; by left).
  assert (H0 : contains ":" p0 = false)
    by (apply (split_on_free ":" line); rewrite Hs; simpl; auto).
  assert (H1 : contains ":" p1 = false)
    by (apply (split_on_free ":" line); rewrite Hs; simpl; auto).
  right. destruct (py_float (replace_char "%" "" (strip p1))) as [f|e] eqn:Hf;
    simpl in H; injection H as <-.
  - exists (lower (replace_char " " "_" (strip p0))), (VFloat f). split; [| done].
    right; left. exists p0, p1. split_and!; try done. left. by exists f.
  - eexists _, _. split; [| reflexivity].
    right; left. exists p0, p1. split_and!; try done. right. split; [by exists e | done].
Qed.

Lemma runtime_line_written (st : scan_state) (line : string) :
  runtime_line st line = st \/
  exists v, entry_written "runtime" v /\ runtime_line st line = set_stat st "runtime" v.
Proof.
  destruct (runtime_line_last st line) as [[_ H] | (p & q & Hl & Hmax & H)]; [by left |].
  right. exists (VStr (strip q)). split; [| done].
  right; right. split; [done |]. exists q. split; [| done].
  destruct (contains ": " q) eqn:Hq; [| done]. exfalso.
  apply contains_iff in Hq as (q1 & q2 & ->).
  specialize (Hmax (p +:+ ": " +:+ q1) q2).
  rewrite !length_append in Hmax. simpl in Hmax.
  assert (Heq : line = (p +:+ ": " +:+ q1) +:+ ": " +:+ q2)
    by (rewrite Hl, !append_assoc; done).
  specialize (Hmax Heq). lia.
Qed.

Lemma process_line_written (st : scan_state) (line : string) (s : step) :
  process_line st line = Ok s ->
  st_stats (step_state s) = st_stats st \/
  exists k v, entry_written k v /\ st_stats (step_state s) = <[k := v]> (st_stats st).
Proof.
  assert (Hcount : forall key r, In key COUNT_KEYS ->
            Next <$> count_line key st line = Ok r ->
            st_stats (step_state r) = st_stats st \/
            exists k v, entry_written k v /\
                        st_stats (step_state r) = <[k := v]> (st_stats st)).
  { intros key r Hk H. destruct (count_line key st line) as [st'|e] eqn:Hc; [| done].
    injection H as <-. apply count_line_written in Hc as [-> | [z ->]]; [by left |].
    right. exists key, (VInt z). split; [| done]. left. split; [done | by exists z]. }
  unfold process_line. intros H.
  destruct (contains SECTION_MARKER line); [injection H as <-; by left |].
  destruct (_ && _ && _); [apply (Hcount "n_images"); [simpl; auto | done] |].
  destruct (_ && _ && _); [apply (Hcount "n_dogs"); [simpl; auto | done] |].
  destruct (_ && _ && _); [apply (Hcount "n_notdogs"); [simpl; auto | done] |].
  destruct (_ && _ && _).
  { destruct (pct_line st line) as [st'|e] eqn:Hp; [| done]. injection H as <-.
    apply pct_line_written in Hp as [-> | (k & v & Hw & ->)]; [by left |].
    right. by exists k, v. }
  destruct (contains RUNTIME_MARKER line); injection H as <-; [| by left].
  destruct (runtime_line_written st line) as [-> | (v & Hw & ->)]; [by left |].
  right. by exists "runtime", v.
Qed.

Lemma scan_lines_written (lines : list string) (st : scan_state) (m : stats) :
  scan_lines st lines = Ok m ->
  forall k v, m !! k = Some v -> st_stats st !! k = Some v \/ entry_written k v.
Proof.
  revert st. induction lines as [|line rest IH]; intros st H k v Hk.
  - injection H as <-. by left.
  - simpl in H. destruct (process_line st line) as [s|e] eqn:Hp; [| done].
    assert (Hstep : forall v', st_stats (step_state s) !! k = Some v' ->
                               st_stats st !! k = Some v' \/ entry_written k v').
    { intros v' Hv'.
      apply process_line_written in Hp as [Heq | (k' & w & Hw & Heq)];
        rewrite Heq in Hv'; [by left |].
      destruct (decide (k' = k)) as [-> | Hne].
      - rewrite lookup_insert_eq in Hv'. injection Hv' as <-. by right.
      - rewrite lookup_insert_ne in Hv' by done. by left. }
    destruct s as [st'|st']; simpl in H.
    + destruct (IH st' H k v Hk) as [Hin | Hw]; [by apply Hstep | by right].
    + injection H as <-. by apply Hstep.
Qed.

Lemma extract_statistics_written (output_text : string) (m : stats) (k : string) (v : pyval) :
  extract_statistics output_text = Ok m -> m !! k = Some v -> entry_written k v.
Proof.
  intros H Hk. destruct (scan_lines_written _ _ _ H k v Hk) as [Hin | Hw]; [| done].
  simpl in Hin. by rewrite lookup_empty in Hin.
Qed.

Lemma entry_written_normal (k : string) (v : pyval) :
  entry_written k v -> normal_key k = true.
Proof.
  intros [[Hk _] | [(label & value & H0 & _ & -> & _) | [-> _]]].
  - simpl in Hk. by destruct Hk as [<- | [<- | [<- | []]]].
  - unfold normal_key, lower.
    rewrite (map_chars_keeps lower_char " " _ lower_char_keeps_space).
    rewrite (map_chars_keeps lower_char ":" _ lower_char_keeps_colon).
    rewrite (replace_char_gone " " "_") by done.
    rewrite (replace_char_keeps ":" " " "_") by done.
    rewrite (strip_keeps ":") by done.
    change (contains (single ":") label) with (contains ":" label). rewrite H0.
    fold lower. rewrite lower_idem. by rewrite String.eqb_refl.
  - done.
Qed.

Lemma entry_written_kind (k : string) (v : pyval) :
  entry_written k v ->
  match v with
  | VInt _ => In k COUNT_KEYS
  | VFloat f => exists text, py_float text = Ok f
  | VStr s =>
      contains ": " s = false /\
      (k <> "runtime" -> contains "%" s = false /\ exists e, py_float s = Raise e)
  end.
Proof.
  intros [[Hk [z ->]] | [(label & value & _ & H1 & _ & Hv) | [-> (q & Hq & ->)]]].
  - done.
  - destruct Hv as [(f & Hf & ->) | [He ->]]; [by eexists |].
    split.
    + destruct (contains ": " _) eqn:E; [| done].
      apply contains_colon_space in E.
      change (contains ":" ?s) with (contains (single ":") s) in E.
      rewrite (replace_char_keeps ":" "%" "") in E by done.
      rewrite (strip_keeps ":") in E by done.
      change (contains (single ":") value) with (contains ":" value) in E. congruence.
    + intros _. split; [| done]. by apply (replace_char_gone "%" "").
  - split; [| done].
    destruct (contains ": " (strip q)) eqn:E; [| done].
    apply contains_strip in E. congruence.
Qed.

(** ** Lines that no branch acts on *)

Lemma process_line_noise (st : scan_state) (line : string) :
  is_noise st line = true -> process_line st line = Ok (Next st).
Proof.
  unfold is_noise, taken_earlier, count_key, process_line.
  intros [[Hm Ht]%andb_true_iff Hr]%andb_true_iff.
  apply negb_true_iff in Hm, Ht, Hr. rewrite Hm, Hr.
  destruct (in_results_section st); [| done].
  destruct (contains ":" line); [| by rewrite !andb_false_r].
  simpl in *. apply orb_false_iff in Ht as [Hk ->].
  destruct (contains "N Images" line); [done |].
  destruct (contains "N Dog Images" line); [done |].
  by destruct (contains "N Not-Dog Images" line).
Qed.

(** ** The loop adds keys and never removes one *)

Lemma scan_lines_keeps (lines : list string) (st : scan_state) (m : stats) (k : string) :
  scan_lines st lines = Ok m -> is_Some (st_stats st !! k) -> is_Some (m !! k).
Proof.
  revert st. induction lines as [|line rest IH]; intros st H Hk.
  - by injection H as <-.
  - simpl in H. destruct (process_line st line) as [s|e] eqn:Hp; [| done].
    assert (Hstep : is_Some (st_stats (step_state s) !! k)).
    { apply process_line_written in Hp as [-> | (k' & w & _ & ->)]; [done |].
      destruct (decide (k' = k)) as [-> | Hne].
      - by rewrite lookup_insert_eq.
      - by rewrite lookup_insert_ne. }
    destruct s as [st'|st']; simpl in H.
    + by apply (IH st').
    + by injection H as <-.
Qed.

Lemma scan_lines_size (lines : list string) (st : scan_state) (m : stats) :
  scan_lines st lines = Ok m ->
  (size m <= size (st_stats st) + length lines)%nat.
Proof.
  revert st. induction lines as [|line rest IH]; intros st H.
  - injection H as <-. simpl. lia.
  - simpl in H. destruct (process_line st line) as [s|e] eqn:Hp; [| done].
    assert (Hstep : (size (st_stats (step_state s)) <= S (size (st_stats st)))%nat).
    { apply process_line_written in Hp as [-> | (k' & w & _ & ->)]; [lia |].
      rewrite map_size_insert. destruct (st_stats st !! k'); simpl; lia. }
    destruct s as [st'|st']; simpl in H.
    + apply IH in H. simpl in *. lia.
    + injection H as <-. simpl in *. lia.
Qed.

(** Every key of the mapping that [extract_statistics] returns is
    normalised: it holds no space and no colon, and no upper-case letter. *)
Theorem extract_statistics_keys (output_text : string) :
  exists m, extract_statistics output_text = Ok m /\
            forall k, is_Some (m !! k) -> normal_key k = true.
Proof.
  destruct (scan_lines_total (split_on newline output_text) initial_state) as [m Hm].
  exists m. split; [done |]. intros k [v Hk].
  by apply (entry_written_normal k v), (extract_statistics_written output_text m).
Qed.

(** The kinds of value that [extract_statistics] stores.  An integer stands
    only under one of the three count keys; a float is what [float] read from
    some text; a text holds no [": "], and under a key other than [runtime]
    it holds no percent sign and is a text that [float] refuses. *)
Theorem extract_statistics_kinds (output_text : string) :
  exists m, extract_statistics output_text = Ok m /\
    forall k v, m !! k = Some v ->
      match v with
      | VInt _ => In k COUNT_KEYS
      | VFloat f => exists text, py_float text = Ok f
      | VStr s =>
          contains ": " s = false /\
          (k <> "runtime" -> contains "%" s = false /\ exists e, py_float s = Raise e)
      end.
Proof.
  destruct (scan_lines_total (split_on newline output_text) initial_state) as [m Hm].
  exists m. split; [done |]. intros k v Hk.
  by apply entry_written_kind, (extract_statistics_written output_text m).
Qed.

(** A line that no branch acts on changes nothing: the text without the line
    gives the same mapping.  Such a line holds neither phrase, and inside the
    results section no colon together with a count label or a percent sign. *)
Theorem noise_line_ignored (output_text shorter_text : string) (pre post : list string)
    (line : string) (st : scan_state) :
  split_on newline output_text = (pre ++ line :: post)%list ->
  split_on newline shorter_text = (pre ++ post)%list ->
  state_after initial_state pre = Ok (Some st) ->
  is_noise st line = true ->
  extract_statistics output_text = extract_statistics shorter_text.
Proof.
  intros Ht Hs Hpre Hn. unfold extract_statistics. rewrite Ht, Hs.
  rewrite !(state_after_app pre _ initial_state st Hpre).
  simpl. by rewrite (process_line_noise st line Hn).
Qed.

Lemma noise_line_ignored_witness :
  extract_statistics
    (join_lines [HEADER_LINE; "Command Line Arguments:"; "N Images            :   4"])
  = extract_statistics (join_lines [HEADER_LINE; "N Images            :   4"]).
Proof.
  apply (noise_line_ignored _ _ [HEADER_LINE] ["N Images            :   4"]
           "Command Line Arguments:" (ScanState ∅ true)); vm_compute; reflexivity.
Defined.

(** The loop never removes a key: a key stored when the loop reaches a line
    is a key of the mapping returned, whatever the lines after it hold. *)
Theorem stored_key_stays (output_text : string) (pre post : list string)
    (st : scan_state) (k : string) :
  split_on newline output_text = (pre ++ post)%list ->
  state_after initial_state pre = Ok (Some st) ->
  is_Some (st_stats st !! k) ->
  exists m, extract_statistics output_text = Ok m /\ is_Some (m !! k).
Proof.
  intros Ht Hpre Hk. unfold extract_statistics. rewrite Ht.
  rewrite (state_after_app pre _ initial_state st Hpre).
  destruct (scan_lines_total post st) as [m Hm]. exists m. split; [done |].
  by apply (scan_lines_keeps post st).
Qed.

Lemma stored_key_stays_witness :
  exists m, extract_statistics sample_report = Ok m /\ is_Some (m !! "n_images").
Proof.
  apply (stored_key_stays sample_report (take 3 sample_lines) (drop 3 sample_lines)
           (ScanState {[ "n_images" := VInt 4 ]} true) "n_images").
  - reflexivity.
  - vm_compute. reflexivity.
  - vm_compute. eexists. reflexivity.
Defined.

(** The mapping has at most one key per line of the text. *)
Theorem extract_statistics_size (output_text : string) :
  exists m, extract_statistics output_text = Ok m /\
            (size m <= length (split_on newline output_text))%nat.
Proof.
  destruct (scan_lines_total (split_on newline output_text) initial_state) as [m Hm].
  exists m. split; [done |]. apply scan_lines_size in Hm.
  change (st_stats initial_state) with (∅ : stats) in Hm.
  by rewrite map_size_empty in Hm.
Qed.

(** ** Reading back what was printed *)

Lemma digit_run_from_uint (d : Decimal.uint) :
  digit_run_from true (NilEmpty.string_of_uint d) = Some (uint_digits d).
Proof. induction d; simpl; [done | ..]; by rewrite IHd. Qed.

Lemma digit_run_uint (d : Decimal.uint) :
  d <> Decimal.Nil -> digit_run (NilEmpty.string_of_uint d) = Some (uint_digits d).
Proof.
  unfold digit_run. destruct d; [done | ..]; intros _; simpl;
    by rewrite digit_run_from_uint.
Qed.

Lemma length_uint_digits (d : Decimal.uint) :
  length (uint_digits d) = String.length (NilEmpty.string_of_uint d).
Proof. induction d; simpl; [done | ..]; by rewrite IHd. Qed.

Lemma of_uint_acc_digits (d : Decimal.uint) (acc : positive) :
  Zpos (Pos.of_uint_acc d acc) =
    fold_left (fun a x => 10 * a + x) (uint_digits d) (Zpos acc).
Proof.
  revert acc. induction d; intros acc; simpl; [done | ..];
    rewrite IHd; f_equal; lia.
Qed.

Lemma of_uint_digits (d : Decimal.uint) :
  Z.of_N (Pos.of_uint d) = digits_value (uint_digits d).
Proof.
  unfold digits_value. induction d; simpl; [done | done | ..];
    by rewrite of_uint_acc_digits.
Qed.

Lemma strip_by_digits (ws : ascii -> bool) (s : string) :
  (forall c, is_digit c = true -> ws c = false) ->
  all_digits s = true ->
  lstrip_by ws s = s /\ rstrip_by ws s = s.
Proof.
  intros Hws. induction s as [|c s IH]; [done |]. simpl.
  intros [Hc Hs]%andb_true_iff. rewrite (Hws c Hc).
  split; [done |]. destruct (IH Hs) as [_ ->]. by destruct s.
Qed.

Lemma c_space_not_digit (c : ascii) : is_digit c = true -> is_c_space c = false.
Proof. by destruct c as [[] [] [] [] [] [] [] []]. Qed.

Lemma space_not_digit (c : ascii) : is_digit c = true -> is_space c = false.
Proof. by destruct c as [[] [] [] [] [] [] [] []]. Qed.

Lemma py_int_uint (p : positive) :
  (String.length (NilEmpty.string_of_uint (Pos.to_uint p)) <= int_max_str_digits)%nat ->
  py_int (NilEmpty.string_of_uint (Pos.to_uint p)) = Ok (Zpos p) /\
  py_int (String "-" (NilEmpty.string_of_uint (Pos.to_uint p))) = Ok (Zneg p).
Proof.
  intros Hlen. set (d := Pos.to_uint p) in *.
  assert (Hd : d <> Decimal.Nil) by apply Unsigned.to_uint_nonnil.
  assert (Hv : digits_value (uint_digits d) = Zpos p).
  { rewrite <- of_uint_digits. unfold d. by rewrite Unsigned.of_to. }
  pose proof (string_of_uint_digits d) as Hall.
  destruct (strip_by_digits is_c_space _ c_space_not_digit Hall) as [Hl Hr].
  assert (Hle : (length (uint_digits d) <=? int_max_str_digits)%nat = true)
    by (rewrite length_uint_digits; by apply Nat.leb_le).
  pose proof (digit_run_uint d Hd) as Hrun.
  split; unfold py_int, c_strip.
  - rewrite Hr, Hl.
    assert (Hs : split_sign (NilEmpty.string_of_uint d) = (false, NilEmpty.string_of_uint d))
      by (clear -Hd; by destruct d).
    by rewrite Hs, Hrun, Hle, Hv.
  - assert (Hr' : rstrip_by is_c_space (String "-" (NilEmpty.string_of_uint d))
                  = String "-" (NilEmpty.string_of_uint d)).
    { cbn [rstrip_by]. rewrite Hr. clear -Hd. by destruct d. }
    rewrite Hr'. cbn [lstrip_by]. change (is_c_space "-") with false. cbn [split_sign].
    change (Ascii.eqb "-" "+") with false. change (Ascii.eqb "-" "-") with true.
    cbv iota. by rewrite Hrun, Hle, Hv.
Qed.

Lemma str_int_abs_length (z : Z) :
  String.length (str_int (Z.abs z)) =
    match z with
    | 0 => 1%nat
    | Zpos p | Zneg p => String.length (NilEmpty.string_of_uint (Pos.to_uint p))
    end.
Proof.
  destruct z as [|p|p]; [done | |]; unfold str_int; simpl;
    pose proof (Unsigned.to_uint_nonnil p); by destruct (Pos.to_uint p).
Qed.

Lemma py_int_str_int (z : Z) :
  (String.length (str_int (Z.abs z)) <= int_max_str_digits)%nat ->
  py_int (str_int z) = Ok z.
Proof.
  rewrite str_int_abs_length. destruct z as [|p|p]; [done | |]; intros Hlen;
    destruct (py_int_uint p Hlen) as [Hpos Hneg]; unfold str_int; simpl;
    pose proof (Unsigned.to_uint_nonnil p) as Hn.
  - rewrite <- Hpos. by destruct (Pos.to_uint p).
  - rewrite <- Hneg. by destruct (Pos.to_uint p).
Qed.

Lemma str_int_no_space (z : Z) :
  lstrip_by is_space (str_int z) = str_int z /\
  rstrip_by is_space (str_int z) = str_int z /\ str_int z <> "".
Proof.
  assert (Hu : forall d, d <> Decimal.Nil ->
            let s := NilEmpty.string_of_uint d in
            lstrip_by is_space s = s /\ rstrip_by is_space s = s /\ s <> "").
  { intros d Hd s. pose proof (string_of_uint_digits d) as Hall.
    destruct (strip_by_digits is_space _ space_not_digit Hall) as [Hl Hr].
    split_and!; try done. subst s. by destruct d. }
  destruct z as [|p|p]; [done | |]; unfold str_int; simpl;
    pose proof (Unsigned.to_uint_nonnil p) as Hn;
    destruct (Hu _ Hn) as (Hl & Hr & Hne).
  - by destruct (Pos.to_uint p).
  - assert (Heq : NilZero.string_of_uint (Pos.to_uint p)
                  = NilEmpty.string_of_uint (Pos.to_uint p))
      by (by destruct (Pos.to_uint p)).
    rewrite Heq. split_and!; try done.
    cbn [rstrip_by]. rewrite Hr. by destruct (NilEmpty.string_of_uint (Pos.to_uint p)).
Qed.

Lemma lstrip_by_spaces (n : nat) (s : string) :
  lstrip_by is_space (spaces n +:+ s) = lstrip_by is_space s.
Proof. induction n as [|n IH]; [done |]. simpl. exact IH. Qed.

Lemma rstrip_by_app (ws : ascii -> bool) (a s : string) :
  rstrip_by ws s = s -> s <> "" -> rstrip_by ws (a +:+ s) = a +:+ s.
Proof.
  intros Hr Hne. induction a as [|c a IH]; [done |].
  change (String c a +:+ s) with (String c (a +:+ s)). cbn [rstrip_by]. rewrite IH.
  destruct a; [by destruct s | done].
Qed.

Lemma strip_spaces (n : nat) (s : string) :
  lstrip_by is_space s = s -> rstrip_by is_space s = s -> s <> "" ->
  strip (spaces n +:+ s) = s.
Proof.
  intros Hl Hr Hne. unfold strip.
  by rewrite (rstrip_by_app _ _ _ Hr Hne), lstrip_by_spaces.
Qed.

Lemma cut_first_app (c : ascii) (a b : string) :
  contains (single c) a = false -> cut_first c (a +:+ String c b) = Some (a, b).
Proof.
  induction a as [|x a IH].
  - intros _. simpl. by rewrite Ascii.eqb_refl.
  - rewrite contains_single_cons. intros [Hx Ha]%orb_false_iff.
    simpl. rewrite Ascii.eqb_sym, Hx, (IH Ha). done.
Qed.

(** A count that was printed as a decimal integer after the colon of a count
    line, behind any number of spaces, is stored as that integer: [int] reads
    back what [str] printed, as long as the integer has no more digits than
    [int] accepts. *)
Theorem count_round_trip (key label : string) (n : nat) (z : Z) (st : scan_state) :
  contains ":" label = false ->
  (String.length (str_int (Z.abs z)) <= int_max_str_digits)%nat ->
  py_int (str_int z) = Ok z /\
  count_line key st (label +:+ ":" +:+ spaces n +:+ str_int z)
    = Ok (set_stat st key (VInt z)).
Proof.
  intros Hlabel Hlen. pose proof (py_int_str_int z Hlen) as Hint.
  split; [done |].
  rewrite count_line_first_colon. unfold spec_count_line.
  change (label +:+ ":" +:+ spaces n +:+ str_int z)
    with (label +:+ String ":" (spaces n +:+ str_int z)).
  rewrite (cut_first_app ":" label _ Hlabel).
  destruct (str_int_no_space z) as (Hl & Hr & Hne).
  by rewrite (strip_spaces n _ Hl Hr Hne), Hint.
Qed.

Lemma count_round_trip_witness :
  py_int (str_int (-12)) = Ok (-12) /\
  count_line "n_dogs" initial_state ("N Dog Images        " +:+ ":" +:+ spaces 3 +:+ str_int (-12))
    = Ok (set_stat initial_state "n_dogs" (VInt (-12))).
Proof.
  apply (count_round_trip "n_dogs" "N Dog Images        " 3 (-12) initial_state).
  - reflexivity.
  - vm_compute. lia.
Defined.

(** ** Percentages with one decimal *)

Lemma tenths_round_trip_all : forallb tenths_round_trip (seq 0 1001) = true.
Proof. vm_compute. reflexivity. Qed.

(** A percentage from 0.0 to 100.0 printed with one decimal is shown with the
    same digits: the percentage branch stores the float that [float] reads
    from it, and [.1f] formats that float back to the text that was read, in
    the console table as in the analysis. *)
Theorem percentage_round_trip (n : nat) (label : string) (st : scan_state) :
  (n <= 1000)%nat ->
  contains ":" label = false ->
  exists f,
    pct_line st (label +:+ ": " +:+ tenths_text n +:+ "%")
      = Ok (set_stat st (lower (replace_char " " "_" (strip label))) (VFloat f)) /\
    metric_cell (VFloat f) = tenths_text n +:+ "%" /\
    format_1f (VFloat f) = Ok (tenths_text n).
Proof.
  intros Hn Hlabel.
  pose proof tenths_round_trip_all as Hall.
  rewrite forallb_forall in Hall. specialize (Hall n).
  assert (Hin : In n (seq 0 1001)) by (apply in_seq; lia).
  specialize (Hall Hin). unfold tenths_round_trip in Hall.
  destruct (py_float _) as [f|e] eqn:Hf; [| done].
  apply andb_true_iff in Hall as [Hfmt%String.eqb_eq Hcolon%negb_true_iff].
  exists f. split_and!.
  - rewrite pct_line_colons.
    change (label +:+ ": " +:+ tenths_text n +:+ "%")
      with (label +:+ String ":" (" " +:+ tenths_text n +:+ "%")).
    assert (Hcut := cut_first_app ":" label (" " +:+ tenths_text n +:+ "%") Hlabel).
    assert (Hrest : count_char ":" (" " +:+ tenths_text n +:+ "%") = 0%nat).
    { apply count_char_zero.
      change (" " +:+ tenths_text n +:+ "%") with (String " " (tenths_text n +:+ "%")).
      rewrite contains_single_cons, contains_single_app.
      change (contains (single ":") (tenths_text n)) with (contains ":" (tenths_text n)).
      by rewrite Hcolon. }
    rewrite (count_char_cut _ _ _ _ Hcut), Hrest. simpl Nat.eqb. cbv iota.
    unfold spec_pct_line. by rewrite Hcut, Hf.
  - simpl. by rewrite Hfmt.
  - simpl. by rewrite Hfmt.
Qed.

Lemma percentage_round_trip_witness :
  exists f,
    pct_line initial_state ("pct Correct Dogs" +:+ ": " +:+ tenths_text 933 +:+ "%")
      = Ok (set_stat initial_state
              (lower (replace_char " " "_" (strip "pct Correct Dogs"))) (VFloat f)) /\
    metric_cell (VFloat f) = tenths_text 933 +:+ "%" /\
    format_1f (VFloat f) = Ok (tenths_text 933).
Proof.
  apply (percentage_round_trip 933 "pct Correct Dogs" initial_state).
  - lia.
  - reflexivity.
Defined.

(** ** The analyzer on texts and on NaN *)

Lemma max_loop_total {A : Type} (f : A -> pyval) (rest : list A) (best : A) (bk : pyval) :
  is_str bk = false -> (forall x, In x rest -> is_str (f x) = false) ->
  exists w, max_loop f best bk rest = Ok w.
Proof.
  revert best bk. induction rest as [|x rest IH]; intros best bk Hbk Hrest.
  - by eexists.
  - simpl. rewrite (py_gt_number (f x) bk) by (auto using in_eq). simpl.
    destruct (gtb (f x) bk); apply IH; auto using in_eq, in_cons.
Qed.

Lemma py_max_total {A : Type} (f : A -> pyval) (items : list A) :
  items <> [] -> (forall x, In x items -> is_str (f x) = false) ->
  exists w, py_max f items = Ok w.
Proof.
  destruct items as [|x rest]; [done |]. intros _ H.
  apply max_loop_total; auto using in_eq, in_cons.
Qed.

Lemma py_max_in {A : Type} (f : A -> pyval) (items : list A) (w : A) :
  py_max f items = Ok w -> In w items.
Proof.
  destruct items as [|x rest]; [done |]. simpl.
  intros [-> | H]%max_loop_in; auto using in_eq, in_cons.
Qed.

Lemma py_max_kinds {A : Type} (f : A -> pyval) (items : list A) (w u : A) :
  py_max f items = Ok w -> In u items -> is_str (f u) = is_str (f w).
Proof.
  destruct items as [|x rest]; [done |]. simpl. intros H Hu.
  pose proof (max_loop_kinds f rest x w H) as Hk.
  assert (Hall : forall y, In y (x :: rest) -> is_str (f y) = is_str (f x)).
  { intros y [<- | Hy]; [done | by apply Hk]. }
  rewrite (Hall u Hu). symmetry. apply Hall.
  apply max_loop_in in H as [-> | H]; auto using in_eq, in_cons.
Qed.

Lemma format_1f_text (v : pyval) (s : string) :
  format_1f v = Ok s -> is_str v = false.
Proof. by destruct v. Qed.

Lemma best_line_inv (label key : string) (best : string * run_result) (l : string) :
  best_line label key best = Ok l ->
  exists s, format_1f (metric_of key best) = Ok s.
Proof.
  unfold best_line, metric_of. destruct (format_1f _) as [s|e]; [| done]. by exists s.
Qed.

Lemma best_line_ok (label key : string) (best : string * run_result) :
  (exists s, format_1f (metric_of key best) = Ok s) ->
  exists l, best_line label key best = Ok l.
Proof.
  unfold best_line, metric_of. intros [s ->]. by eexists.
Qed.

(** What a returned analysis needed: each winner's value was formatted. *)
Lemma analyze_results_formats (all_results : results) (a : analysis) (key : string) :
  analyze_results all_results = Ok a -> In key METRICS ->
  exists best s, py_max (metric_of key) all_results = Ok best /\
                 format_1f (metric_of key best) = Ok s.
Proof.
  unfold analyze_results. intros H Hk.
  destruct (py_max (metric_of "pct_correct_dogs") all_results) as [bd|] eqn:M1; [| done].
  destruct (py_max (metric_of "pct_correct_breed") all_results) as [bb|] eqn:M2; [| done].
  destruct (py_max (metric_of "pct_correct_notdogs") all_results) as [bn|] eqn:M3; [| done].
  destruct (py_max (metric_of "pct_match") all_results) as [bo|] eqn:M4; [| done].
  simpl in H.
  destruct (best_line _ "pct_correct_dogs" bd) as [l1|] eqn:H1; [| done].
  destruct (best_line _ "pct_correct_breed" bb) as [l2|] eqn:H2; [| done].
  destruct (best_line _ "pct_correct_notdogs" bn) as [l3|] eqn:H3; [| done].
  destruct (best_line _ "pct_match" bo) as [l4|] eqn:H4; [| done].
  apply best_line_inv in H1 as [s1 H1], H2 as [s2 H2], H3 as [s3 H3], H4 as [s4 H4].
  simpl in Hk.
  destruct Hk as [<- | [<- | [<- | [<- | []]]]];
    eexists _, _; (split; [eassumption | eassumption]).
Qed.

Lemma analyze_results_text (all_results : results) (key : string)
    (item : string * run_result) :
  In key METRICS -> In item all_results -> is_str (metric_of key item) = true ->
  exists e, analyze_results all_results = Raise e.
Proof.
  intros Hk Hi Hs. destruct (analyze_results all_results) as [a|e] eqn:Ha; [| by exists e].
  destruct (analyze_results_formats _ _ key Ha Hk) as (best & s & Hmax & Hfmt).
  apply format_1f_text in Hfmt.
  rewrite <- (py_max_kinds _ _ best item Hmax Hi) in Hfmt. congruence.
Qed.

Lemma analyze_results_numbers (all_results : results) :
  all_results <> [] ->
  (forall key item, In key METRICS -> In item all_results ->
                    exists s, format_1f (metric_of key item) = Ok s) ->
  exists a, analyze_results all_results = Ok a.
Proof.
  intros Hne Hfmt.
  assert (Hmax : forall key, In key METRICS ->
            exists best, py_max (metric_of key) all_results = Ok best /\
                         forall label, exists l, best_line label key best = Ok l).
  { intros key Hk.
    destruct (py_max_total (metric_of key) all_results Hne) as [best Hb].
    { intros x Hx. destruct (Hfmt key x Hk Hx) as [s Hs]. by apply format_1f_text in Hs. }
    exists best. split; [done |]. intros label. apply best_line_ok.
    apply Hfmt; [done |]. by apply py_max_in in Hb. }
  unfold analyze_results.
  destruct (Hmax "pct_correct_dogs") as (bd & -> & H1); [simpl; auto |].
  destruct (Hmax "pct_correct_breed") as (bb & -> & H2); [simpl; auto |].
  destruct (Hmax "pct_correct_notdogs") as (bn & -> & H3); [simpl; auto |].
  destruct (Hmax "pct_match") as (bo & -> & H4); [simpl; auto 6 |].
  simpl.
  destruct (H1 "Best at identifying dogs") as [l1 ->].
  destruct (H2 "Best at breed classification") as [l2 ->].
  destruct (H3 "Best at identifying non-dogs") as [l3 ->].
  destruct (H4 "Best overall match rate") as [l4 ->].
  simpl. by eexists.
Qed.

(** Every model that the analysis names is a model of the collection: the
    four winners are entries of the collection, and the recommendation is the
    key of one of them in upper case. *)
Theorem analysis_names_entries (all_results : results) (a : analysis) :
  analyze_results all_results = Ok a ->
  In (best_dogs a) all_results /\ In (best_breeds a) all_results /\
  In (best_notdogs a) all_results /\ In (best_overall a) all_results /\
  exists model r, In (model, r) all_results /\ recommended a = upper model.
Proof.
  intros (Hd & Hb & Hn & Ho & Hr & _)%analyze_results_inv.
  apply py_max_in in Hd, Hb, Hn, Ho. split_and!; try done.
  destruct (best_overall a) as [model r]. by exists model, r.
Qed.

Lemma analysis_names_entries_witness :
  exists a,
    analyze_results scenario_results = Ok a /\
    In (best_dogs a) scenario_results /\ In (best_breeds a) scenario_results /\
    In (best_notdogs a) scenario_results /\ In (best_overall a) scenario_results /\
    exists model r, In (model, r) scenario_results /\ recommended a = upper model.
Proof.
  assert (H : exists a, analyze_results scenario_results = Ok a)
    by (vm_compute; eexists; reflexivity).
  destruct H as [a Ha]. exists a. split; [exact Ha |].
  exact (analysis_names_entries scenario_results a Ha).
Defined.

(** A text under one of the four metrics of any model makes the analyzer
    raise, whatever the other values are: the comparison of a text with a
    number fails, and when every value of the metric is a text the format
    [.1f] fails. *)
Theorem analyze_results_raises_on_text (all_results : results) (key : string)
    (item : string * run_result) :
  In key METRICS -> In item all_results -> is_str (metric_of key item) = true ->
  exists e, analyze_results all_results = Raise e.
Proof. apply analyze_results_text. Qed.

Lemma analyze_results_raises_on_text_witness :
  exists e,
    analyze_results [("vgg", Some {[ "pct_match" := VStr "n/a" ]}); ("alexnet", None)]
    = Raise e.
Proof.
  apply (analyze_results_raises_on_text _ "pct_match"
           ("vgg", Some {[ "pct_match" := VStr "n/a" ]})).
  - simpl. auto 6.
  - simpl. auto.
  - vm_compute. reflexivity.
Defined.

(** On a collection that is not empty and whose metric values can all be
    formatted, NaN and the infinities included, the analyzer returns. *)
Theorem analyze_results_returns (all_results : results) :
  all_results <> [] ->
  (forall key item, In key METRICS -> In item all_results ->
                    exists s, format_1f (metric_of key item) = Ok s) ->
  exists a, analyze_results all_results = Ok a.
Proof. apply analyze_results_numbers. Qed.

Lemma analyze_results_returns_witness :
  exists a, analyze_results [("vgg", Some {[ "pct_match" := VFloat S754_nan ]});
                             ("alexnet", None)] = Ok a.
Proof.
  apply analyze_results_returns; [done |].
  intros key item Hk Hi. simpl in Hk, Hi.
  destruct Hi as [<- | [<- | []]];
    destruct Hk as [<- | [<- | [<- | [<- | []]]]]; vm_compute; by eexists.
Defined.

(** ** The workflow, step by step *)

Lemma print_all_spec (lines : list string) (w : world) :
  print_all lines w = (World (printed w ++ lines) (spawned w) (saved w), Ok tt).
Proof.
  revert w. induction lines as [|l rest IH]; intros w.
  - simpl. rewrite app_nil_r. by destruct w.
  - cbn [print_all]. unfold mbind, io_bind, print. rewrite IH. simpl.
    by rewrite <- List.app_assoc.
Qed.

Lemma run_model_spec (env : environment) (args : arguments) (model : string) (w : world) :
  exists out,
    run_model_and_capture_results env model (arg_dir args) (arg_dogfile args) w
    = (World (printed w ++ out) (spawned w ++ commands env args [model]) (saved w),
       Ok (captured_output env args model)).
Proof.
  unfold run_model_and_capture_results, captured_output, commands, mbind, io_bind,
    print, subprocess_run. simpl.
  destruct (subprocess_result env _) as [rc out err | | msg]; [destruct (rc =? 0) | |];
    simpl; eexists; rewrite <- ?List.app_assoc; reflexivity.
Qed.

Lemma collect_results_total (run : string -> option string) (models : list string)
    (all_results : results) :
  exists rs, collect_results run models all_results = Ok rs.
Proof.
  revert all_results. induction models as [|model rest IH]; intros acc; [by eexists |].
  cbn [collect_results]. destruct (run model) as [[|c t]|]; try apply IH.
  destruct (scan_lines_total (split_on newline (String c t)) initial_state) as [st Hst].
  unfold extract_statistics. rewrite Hst. apply IH.
Qed.

Lemma main_loop_spec (env : environment) (args : arguments) (models : list string)
    (all_results : results) (w : world) :
  exists out rs,
    main_loop env args models all_results w
    = (World (printed w ++ out)
         (spawned w ++ commands env args (started env args models)) (saved w),
       if loop_encodable env args models then Ok rs else Raise UnicodeEncodeError) /\
    collect_results (captured_output env args) models all_results = Ok rs.
Proof.
  revert all_results w. induction models as [|model rest IH]; intros acc w.
  - exists [], acc. split; [| done]. simpl. rewrite !app_nil_r. by destruct w.
  - unfold loop_encodable in *. cbn [main_loop collect_results started forallb].
    unfold mbind at 1, io_bind at 1.
    destruct (run_model_spec env args model w) as [out1 ->].
    assert (Hnext : forall line r,
              stdout_encodes env line = status_encodable env args model ->
              exists out rs,
                (print_encoded env line;;
                 main_loop env args rest (dict_set model r acc))
                  (World (printed w ++ out1) (spawned w ++ commands env args [model])
                     (saved w))
                = (World (printed w ++ out)
                     (spawned w ++
                      commands env args
                        (model :: (if status_encodable env args model
                                   then started env args rest else [])))
                     (saved w),
                   if status_encodable env args model
                      && forallb (status_encodable env args) rest
                   then Ok rs else Raise UnicodeEncodeError) /\
                collect_results (captured_output env args) rest (dict_set model r acc)
                = Ok rs).
    { intros line r Henc. unfold mbind, io_bind, print_encoded. rewrite Henc.
      destruct (status_encodable env args model).
      - unfold print. cbn [printed spawned saved].
        destruct (IH (dict_set model r acc)
                    (World ((printed w ++ out1) ++ [line])
                       (spawned w ++ commands env args [model]) (saved w)))
          as (out2 & rs & -> & Hrs).
        exists (out1 ++ [line] ++ out2)%list, rs. split; [| done].
        cbn [printed spawned saved andb]. unfold commands. simpl.
        by rewrite <- !List.app_assoc.
      - destruct (collect_results_total (captured_output env args) rest
                    (dict_set model r acc)) as [rs Hrs].
        exists out1, rs. split; [| done]. reflexivity. }
    unfold status_encodable at 1 2 3 in Hnext. unfold status_encodable at 1 2.
    destruct (captured_output env args model) as [[|c t]|]; try (by apply Hnext).
    destruct (scan_lines_total (split_on newline (String c t)) initial_state) as [st Hst].
    unfold mbind at 1, io_bind at 1, lift at 1.
    change (extract_statistics (String c t)) with
      (scan_lines initial_state (split_on newline (String c t))).
    rewrite Hst. cbn [mbind res_bind]. by apply Hnext.
Qed.

Lemma analyze_results_io_spec (all_results : results) (w : world) :
  match analyze_results all_results with
  | Ok a =>
      analyze_results_io all_results w
      = (World (printed w ++ report a) (spawned w) (saved w), Ok tt)
  | Raise e =>
      exists out,
        analyze_results_io all_results w
        = (World (printed w ++ out) (spawned w) (saved w), Raise e)
  end.
Proof.
  unfold analyze_results_io, analyze_results, mbind, io_bind, print, lift.
  cbv beta iota delta [res_bind printed spawned saved].
  destruct (py_max (metric_of "pct_correct_dogs") all_results) as [bd|];
    [| eexists; rewrite <- ?List.app_assoc; reflexivity].
  destruct (py_max (metric_of "pct_correct_breed") all_results) as [bb|];
    [| eexists; rewrite <- ?List.app_assoc; reflexivity].
  destruct (py_max (metric_of "pct_correct_notdogs") all_results) as [bn|];
    [| eexists; rewrite <- ?List.app_assoc; reflexivity].
  destruct (py_max (metric_of "pct_match") all_results) as [bo|];
    [| eexists; rewrite <- ?List.app_assoc; reflexivity].
  destruct (best_line _ "pct_correct_dogs" bd) as [l1|];
    [| eexists; rewrite <- ?List.app_assoc; reflexivity].
  destruct (best_line _ "pct_correct_breed" bb) as [l2|];
    [| eexists; rewrite <- ?List.app_assoc; reflexivity].
  destruct (best_line _ "pct_correct_notdogs" bn) as [l3|];
    [| eexists; rewrite <- ?List.app_assoc; reflexivity].
  destruct (best_line _ "pct_match" bo) as [l4|];
    [| eexists; rewrite <- ?List.app_assoc; reflexivity].
  cbv beta iota delta [mret res_ret report]. rewrite <- ?List.app_assoc. reflexivity.
Qed.

(** ** What the collection holds *)

Lemma dict_set_in (key : string) (v : run_result) (d : results)
    (model : string) (r : run_result) :
  In (model, r) (dict_set key v d) -> (model = key /\ r = v) \/ In (model, r) d.
Proof.
  induction d as [|[k x] d IH]; simpl.
  - intros [[= <- <-] | []]. by left.
  - destruct (String.eqb k key) eqn:E.
    + apply String.eqb_eq in E as ->. intros [[= <- <-] | H]; [by left | right; by right].
    + intros [H | H]; [right; by left |].
      destruct (IH H) as [? | ?]; [by left | right; by right].
Qed.

Lemma dict_get_in (key : string) (d : results) (r : run_result) :
  dict_get key d = Some r -> In (key, r) d.
Proof.
  induction d as [|[k x] d IH]; simpl; [done |].
  destruct (String.eqb k key) eqn:E.
  - apply String.eqb_eq in E as ->. intros [= <-]. by left.
  - intros H. right. by apply IH.
Qed.

Lemma collect_results_extracted (run : string -> option string) (models : list string)
    (acc rs : results) :
  collect_results run models acc = Ok rs ->
  (forall model st, In (model, Some st) acc -> extracted st) ->
  forall model st, In (model, Some st) rs -> extracted st.
Proof.
  revert acc. induction models as [|m rest IH]; intros acc H Hacc.
  - injection H as <-. exact Hacc.
  - cbn [collect_results] in H.
    assert (Hnone : collect_results run rest (dict_set m None acc) = Ok rs ->
                    forall model st, In (model, Some st) rs -> extracted st).
    { intros H'. apply (IH _ H'). intros model st [[_ [=]] | Hin]%dict_set_in.
      by apply (Hacc model). }
    destruct (run m) as [[|c t]|]; [by apply Hnone | | by apply Hnone].
    destruct (extract_statistics (String c t)) as [st0|e] eqn:Hext; [| done].
    cbn [mbind res_bind] in H. apply (IH _ H).
    intros model st [[_ [= <-]] | Hin]%dict_set_in.
    + intros k v Hk. by apply (extract_statistics_written (String c t) st).
    + by apply (Hacc model).
Qed.

Lemma extracted_format (st : stats) (key : string) :
  extracted st -> In key METRICS -> (forall t, st !! key <> Some (VStr t)) ->
  exists s, format_1f (get_or st key (VInt 0)) = Ok s.
Proof.
  intros Hst Hk Htext. unfold get_or.
  destruct (st !! key) as [[z|f|t]|] eqn:Hv; simpl.
  - apply Hst, entry_written_kind in Hv. simpl in Hk, Hv.
    destruct Hk as [<- | [<- | [<- | [<- | []]]]];
      destruct Hv as [[=] | [[=] | [[=] | []]]].
  - by eexists.
  - by destruct (Htext t).
  - by eexists.
Qed.

Lemma truthy_lookup (st : stats) (key : string) (v : pyval) :
  st !! key = Some v -> truthy (Some st) = true.
Proof.
  intros H. simpl. apply negb_true_iff, bool_decide_eq_false. intros ->.
  by rewrite lookup_empty in H.
Qed.

Lemma metric_of_text (model : string) (st : stats) (key t : string) :
  st !! key = Some (VStr t) -> is_str (metric_of key (model, Some st)) = true.
Proof.
  intros H. unfold metric_of, safe_get. cbn [snd].
  rewrite (truthy_lookup st key _ H). unfold get_or. simpl. by rewrite H.
Qed.

Lemma metric_of_format (all_results : results) :
  (forall model st, In (model, Some st) all_results -> extracted st) ->
  no_text_metric all_results ->
  forall key item, In key METRICS -> In item all_results ->
                   exists s, format_1f (metric_of key item) = Ok s.
Proof.
  intros Hext Hno key [model [st|]] Hk Hi; unfold metric_of, safe_get; cbn [snd];
    [| by eexists].
  destruct (truthy (Some st)); [| by eexists]. simpl.
  apply extracted_format; [by apply (Hext model) | done |].
  intros t. by apply (Hno model).
Qed.

Lemma printable_format (all_results : results) :
  (forall model st, In (model, Some st) all_results -> extracted st) ->
  no_text_metric all_results -> printable all_results.
Proof.
  intros Hext Hno model key st _ Hk Hget%dict_get_in.
  apply extracted_format; [by apply (Hext (lower model)) | done |].
  intros t. by apply (Hno (lower model)).
Qed.

Lemma collect_results_three (run : string -> option string) (rs : results) :
  collect_results run MODELS [] = Ok rs ->
  exists r1 r2 r3, rs = [("vgg", r1); ("alexnet", r2); ("resnet", r3)].
Proof.
  destruct (collect_results_order run) as (r1 & r2 & r3 & ->). intros [= <-].
  by exists r1, r2, r3.
Qed.

(** ** The script as a whole *)

Section WorkflowFacts.

Variable float_repr : spec_float -> string.

#[local] Arguments visual_rows : simpl never.

Lemma create_visual_results_table_io_spec (env : environment) (all_results : results)
    (w : world) :
  create_visual_results_table_io float_repr env all_results w =
    match create_visual_results_table float_repr (matplotlib_available env) all_results with
    | Ok (lines, fig) =>
        (World (printed w ++ lines) (spawned w) (saved w ++ option_list fig),
         Ok (fig_filename <$> fig))
    | Raise e => (w, Raise e)
    end.
Proof.
  unfold create_visual_results_table_io, mbind, io_bind, lift, savefig.
  destruct (create_visual_results_table _ _ _) as [[lines [f|]]|e]; [| | done].
  - rewrite print_all_spec. reflexivity.
  - rewrite print_all_spec. simpl. by rewrite app_nil_r.
Qed.

Lemma create_visual_results_table_total (available : bool) (all_results : results) :
  all_results <> [] -> printable all_results ->
  exists lines fig,
    create_visual_results_table float_repr available all_results = Ok (lines, fig).
Proof.
  intros Hne Hp. unfold create_visual_results_table.
  destruct available; simpl; [| by eexists _, _].
  destruct all_results as [|[model first] rest]; [done |].
  destruct (truthy first); simpl; [| by eexists _, _].
  destruct (visual_rows_total float_repr ((model, first) :: rest) DISPLAY_MODELS Hp)
    as [rows ->].
  simpl. by eexists _, _.
Qed.

Lemma started_all (env : environment) (args : arguments) (models : list string) :
  loop_encodable env args models = true -> started env args models = models.
Proof.
  unfold loop_encodable. induction models as [|model rest IH]; [done |].
  cbn [forallb started]. intros [-> Hrest]%andb_true_iff. by rewrite (IH Hrest).
Qed.

Lemma started_prefix (env : environment) (args : arguments) (models : list string) :
  exists later, models = (started env args models ++ later)%list.
Proof.
  induction models as [|model rest [later IH]]; [by exists [] |].
  cbn [started]. destruct (status_encodable env args model).
  - exists later. simpl. by rewrite <- IH.
  - by exists rest.
Qed.

Lemma main_eq (env : environment) (args : arguments) (w : world) :
  paths_exist env args = true ->
  exists loop_out rs,
    collect_results (captured_output env args) MODELS [] = Ok rs /\
    let after_loop :=
      World (printed w ++
             ["Uploaded Image Classification - Model Comparison";
              repeat_string "=" 50] ++ loop_out)
        (spawned w ++ commands env args (started env args MODELS)) (saved w) in
    main float_repr env args w =
      if loop_encodable env args MODELS then
        (print_all (create_console_results_table rs);;
         analyze_results_io rs;;
         create_visual_results_table_io float_repr env rs;;
         print (nl +:+ "Comparison complete!")) after_loop
      else (after_loop, Raise UnicodeEncodeError).
Proof.
  unfold paths_exist. intros [[H1 H2]%andb_true_iff H3]%andb_true_iff.
  destruct (main_loop_spec env args MODELS []
              (World ((printed w ++ ["Uploaded Image Classification - Model Comparison"])
                      ++ [repeat_string "=" 50]) (spawned w) (saved w)))
    as (out & rs & Hloop & Hrs).
  exists out, rs. split; [done |]. cbv zeta.
  unfold main. rewrite H1, H2, H3. cbn [negb].
  unfold mbind at 1 2 3, io_bind at 1 2 3, print at 1 2. cbn [printed spawned saved].
  rewrite Hloop. cbn [printed spawned saved].
  destruct (loop_encodable env args MODELS); by rewrite <- !List.app_assoc.
Qed.

Lemma main_spec (env : environment) (args : arguments) (w : world) :
  paths_exist env args = true ->
  exists loop_out rs,
    collect_results (captured_output env args) MODELS [] = Ok rs /\
    let heading :=
      (printed w ++
       ["Uploaded Image Classification - Model Comparison"; repeat_string "=" 50] ++
       loop_out)%list in
    let shown := (heading ++ create_console_results_table rs)%list in
    let run := (spawned w ++ commands env args (started env args MODELS))%list in
    if loop_encodable env args MODELS then
      match analyze_results rs with
      | Raise e =>
          exists out, main float_repr env args w
                      = (World (shown ++ out) run (saved w), Raise e)
      | Ok a =>
          match create_visual_results_table float_repr (matplotlib_available env) rs with
          | Raise e =>
              main float_repr env args w
              = (World (shown ++ report a) run (saved w), Raise e)
          | Ok (lines, fig) =>
              main float_repr env args w
              = (World (shown ++ report a ++ lines ++ [nl +:+ "Comparison complete!"])
                   run (saved w ++ option_list fig), Ok tt)
          end
      end
    else
      main float_repr env args w = (World heading run (saved w), Raise UnicodeEncodeError).
Proof.
  intros Hp. destruct (main_eq env args w Hp) as (out & rs & Hrs & ->).
  exists out, rs. split; [done |]. cbv zeta.
  destruct (loop_encodable env args MODELS); [| done].
  pose proof (analyze_results_io_spec rs
                (World ((printed w ++
                         ["Uploaded Image Classification - Model Comparison";
                          repeat_string "=" 50] ++ out) ++ create_console_results_table rs)
                   (spawned w ++ commands env args (started env args MODELS))
                   (saved w))) as Han.
  cbn [printed spawned saved] in Han.
  destruct (analyze_results rs) as [a|e];
    [destruct (create_visual_results_table _ _ _) as [[lines fig]|e] eqn:Hv |];
    unfold mbind at 1, io_bind at 1; rewrite print_all_spec; cbn [printed spawned saved];
    unfold mbind at 1, io_bind at 1.
  - rewrite Han. unfold mbind at 1, io_bind at 1.
    rewrite create_visual_results_table_io_spec, Hv. cbn [printed spawned saved].
    unfold print. cbn [printed spawned saved]. f_equal. f_equal.
    by rewrite <- !List.app_assoc.
  - rewrite Han. unfold mbind at 1, io_bind at 1.
    by rewrite create_visual_results_table_io_spec, Hv.
  - destruct Han as [out' ->]. by exists out'.
Qed.

End WorkflowFacts.

Lemma collect_results_records (run : string -> option string) (rs : results) :
  collect_results run MODELS [] = Ok rs ->
  map fst rs = MODELS /\
  forall model, In model MODELS ->
    match run model with
    | Some (String c t) =>
        exists st, extract_statistics (String c t) = Ok st /\
                   dict_get model rs = Some (Some st)
    | _ => dict_get model rs = Some None
    end.
Proof.
  unfold MODELS. cbn [collect_results].
  assert (Hex : forall t, exists st, extract_statistics t = Ok st).
  { intros t. apply scan_lines_total. }
  destruct (run "vgg") as [[|c1 t1]|] eqn:E1;
    [| destruct (Hex (String c1 t1)) as [s1 Hs1]; rewrite Hs1 |];
    (destruct (run "alexnet") as [[|c2 t2]|] eqn:E2;
     [| destruct (Hex (String c2 t2)) as [s2 Hs2]; rewrite Hs2 |];
     (destruct (run "resnet") as [[|c3 t3]|] eqn:E3;
      [| destruct (Hex (String c3 t3)) as [s3 Hs3]; rewrite Hs3 |];
      simpl; intros [= <-]; (split; [reflexivity |]);
      intros model [<- | [<- | [<- | []]]];
      rewrite ?E1, ?E2, ?E3; simpl; eauto)).
Qed.

Lemma ljust_length (w : nat) (s : string) :
  String.length (ljust w s) = Nat.max w (String.length s).
Proof.
  unfold ljust. rewrite length_append.
  assert (Hs : forall n, String.length (spaces n) = n)
    by (induction n as [|n IH]; simpl; congruence).
  rewrite Hs. lia.
Qed.

Section MainFacts.

Variable float_repr : spec_float -> string.

Lemma main_missing (env : environment) (args : arguments) (w : world) :
  paths_exist env args = false ->
  exists message,
    starts_with "ERROR: " message = true /\
    main float_repr env args w
    = (World (printed w ++ [message]) (spawned w) (saved w), Ok tt).
Proof.
  unfold paths_exist, main.
  destruct (path_exists env "check_images.py");
    [destruct (path_exists env (arg_dir args));
       [destruct (path_exists env (arg_dogfile args)); [done |] |] |];
    intros _; eexists; (split; [| reflexivity]); reflexivity.
Qed.

(** When one of the three paths that [main] checks is missing, the script
    prints one line that starts with [ERROR:], runs no command, saves no
    figure and returns. *)
Theorem main_missing_path (env : environment) (args : arguments) (w : world) :
  paths_exist env args = false ->
  exists message,
    starts_with "ERROR: " message = true /\
    main float_repr env args w
    = (World (printed w ++ [message]) (spawned w) (saved w), Ok tt).
Proof. apply main_missing. Qed.

(** [main] starts the classifier for vgg, alexnet and resnet in this order,
    each time with a timeout of 300 seconds, whatever the outcome of a run
    and whether or not the reports make a later step raise.  It starts all
    three when the standard output can encode the status lines; otherwise
    the model whose status line cannot be printed is the last one started.
    With a path missing it starts nothing. *)
Theorem main_runs_commands (env : environment) (args : arguments) (w : world) :
  spawned (main float_repr env args w).1 =
    (spawned w ++
     if paths_exist env args then commands env args (started env args MODELS) else [])%list /\
  (loop_encodable env args MODELS = true ->
   commands env args (started env args MODELS) =
     [(command env "vgg" (arg_dir args) (arg_dogfile args), 300);
      (command env "alexnet" (arg_dir args) (arg_dogfile args), 300);
      (command env "resnet" (arg_dir args) (arg_dogfile args), 300)]) /\
  (loop_encodable env args MODELS = false ->
   exists first later, MODELS = (started env args MODELS ++ later)%list /\
                       first ∈ started env args MODELS /\
                       last (started env args MODELS) = Some first /\
                       status_encodable env args first = false).
Proof.
  split_and!.
  - destruct (paths_exist env args) eqn:Hp.
    + destruct (main_spec float_repr env args w Hp) as (out & rs & _ & H).
      cbv zeta in H.
      destruct (loop_encodable env args MODELS); [| by rewrite H].
      destruct (analyze_results rs) as [a|e];
        [destruct (create_visual_results_table _ _ _) as [[lines fig]|e] |
         destruct H as [out' H]]; by rewrite H.
    + destruct (main_missing env args w Hp) as (msg & _ & ->). simpl.
      by rewrite app_nil_r.
  - intros Henc. by rewrite (started_all env args MODELS Henc).
  - unfold loop_encodable, MODELS. cbn [forallb started].
    destruct (status_encodable env args "vgg") eqn:E1;
      [destruct (status_encodable env args "alexnet") eqn:E2;
         [destruct (status_encodable env args "resnet") eqn:E3; [done |] |] |];
      intros _.
    + exists "resnet", []. split_and!; try done. set_solver.
    + exists "alexnet", ["resnet"]. split_and!; try done. set_solver.
    + exists "vgg", ["alexnet"; "resnet"]. split_and!; try done. set_solver.
Qed.

(** The loop of [main] saves nothing and raises only when the standard
    output cannot encode a status line, and then [UnicodeEncodeError].
    Otherwise it leaves one entry per model, in the order of the runs: the
    statistics extracted from the captured output when the process exits
    with status zero and prints something, and no result in every other
    case, a timeout and any other exception included. *)
Theorem main_loop_records (env : environment) (args : arguments) (w : world) :
  exists w',
    saved w' = saved w /\
    if loop_encodable env args MODELS then
      exists rs,
        main_loop env args MODELS [] w = (w', Ok rs) /\
        map fst rs = MODELS /\
        forall model, In model MODELS ->
          match subprocess_result env
                  (command env model (arg_dir args) (arg_dogfile args)) with
          | CompletedProcess 0 (String c t) _ =>
              exists st, extract_statistics (String c t) = Ok st /\
                         dict_get model rs = Some (Some st)
          | _ => dict_get model rs = Some None
          end
    else main_loop env args MODELS [] w = (w', Raise UnicodeEncodeError).
Proof.
  destruct (main_loop_spec env args MODELS [] w) as (out & rs & Hloop & Hrs).
  exists (World (printed w ++ out)
            (spawned w ++ commands env args (started env args MODELS)) (saved w)).
  split; [| destruct (loop_encodable env args MODELS)].
  - reflexivity.
  - exists rs. split; [exact Hloop |].
    destruct (collect_results_records _ _ Hrs) as [Hkeys Hrec]. split; [done |].
    intros model Hm. specialize (Hrec model Hm). unfold captured_output in Hrec.
    destruct (subprocess_result env _) as [[|p|p] [|c t] err | | msg]; exact Hrec.
  - exact Hloop.
Qed.

(** With the three paths there, and taking the plotting calls to succeed,
    [main] returns exactly when the standard output can encode the status
    lines of the loop and no collected result holds a text under one of the
    four metrics; its last line is then the closing one.  When a status line
    cannot be encoded [main] raises [UnicodeEncodeError] in its loop.  A text
    under a metric, which the percentage branch stores for a value that is
    no number, makes [main] raise, at the latest in the analysis after the
    console table.  In both cases no figure is saved. *)
Theorem main_outcome (env : environment) (args : arguments) (w : world) :
  paths_exist env args = true ->
  exists rs,
    collect_results (captured_output env args) MODELS [] = Ok rs /\
    (loop_encodable env args MODELS = true -> no_text_metric rs ->
     (main float_repr env args w).2 = Ok tt /\
     last (printed (main float_repr env args w).1) = Some (nl +:+ "Comparison complete!")) /\
    (loop_encodable env args MODELS = false ->
     (main float_repr env args w).2 = Raise UnicodeEncodeError /\
     saved (main float_repr env args w).1 = saved w) /\
    (forall model st key t,
       In (model, Some st) rs -> In key METRICS -> st !! key = Some (VStr t) ->
       exists e, (main float_repr env args w).2 = Raise e /\
                 saved (main float_repr env args w).1 = saved w).
Proof.
  intros Hp. destruct (main_spec float_repr env args w Hp) as (out & rs & Hrs & H).
  cbv zeta in H. exists rs. split; [done |].
  assert (Hext : forall model st, In (model, Some st) rs -> extracted st).
  { apply (collect_results_extracted _ _ _ _ Hrs). intros ? ? []. }
  destruct (collect_results_three _ _ Hrs) as (r1 & r2 & r3 & Hthree).
  split_and!.
  - intros Henc Hno. rewrite Henc in H.
    destruct (analyze_results_numbers rs) as [a Ha].
    { by rewrite Hthree. }
    { by apply metric_of_format. }
    destruct (create_visual_results_table_total float_repr (matplotlib_available env) rs)
      as (lines & fig & Hv).
    { by rewrite Hthree. }
    { by apply printable_format. }
    rewrite Ha, Hv in H. rewrite H. split; [done |]. cbn [fst printed].
    by rewrite !List.app_assoc, last_snoc.
  - intros Henc. rewrite Henc in H. by rewrite H.
  - intros model st key t Hin Hk Hv.
    destruct (loop_encodable env args MODELS).
    + destruct (analyze_results_text rs key (model, Some st) Hk Hin) as [e He].
      { by apply (metric_of_text model st key t). }
      rewrite He in H. destruct H as [out' H]. exists e. by rewrite H.
    + exists UnicodeEncodeError. by rewrite H.
Qed.

(** What [main] saves: the figure that the visual reporter computes from the
    collected results, when the loop printed its status lines, the analyzer
    returned and the reporter has a figure, and nothing otherwise.  It never
    saves more than one figure. *)
Theorem main_saves_figure (env : environment) (args : arguments) (w : world) :
  paths_exist env args = true ->
  exists rs,
    collect_results (captured_output env args) MODELS [] = Ok rs /\
    saved (main float_repr env args w).1 =
      (saved w ++
       if loop_encodable env args MODELS then
         match analyze_results rs,
               create_visual_results_table float_repr (matplotlib_available env) rs with
         | Ok _, Ok (_, Some fig) => [fig]
         | _, _ => []
         end
       else [])%list.
Proof.
  intros Hp. destruct (main_spec float_repr env args w Hp) as (out & rs & Hrs & H).
  cbv zeta in H. exists rs. split; [done |].
  destruct (loop_encodable env args MODELS); [| rewrite H; simpl; by rewrite app_nil_r].
  destruct (analyze_results rs) as [a|e];
    [destruct (create_visual_results_table _ _ _) as [[lines [fig|]]|e] |
     destruct H as [out' H]]; rewrite H; simpl; by rewrite ?app_nil_r.
Qed.

End MainFacts.

Lemma main_missing_path_witness :
  exists message,
    starts_with "ERROR: " message = true /\
    main (fun _ => "") bare_environment DEFAULT_ARGUMENTS empty_world
    = (World (printed empty_world ++ [message]) (spawned empty_world) (saved empty_world),
       Ok tt).
Proof. apply (main_missing_path (fun _ => "") bare_environment). reflexivity. Defined.

Lemma main_outcome_witness :
  (exists rs,
     collect_results (captured_output sample_environment DEFAULT_ARGUMENTS) MODELS []
     = Ok rs /\
     (main (fun _ => "") sample_environment DEFAULT_ARGUMENTS empty_world).2 = Ok tt /\
     last (printed (main (fun _ => "") sample_environment DEFAULT_ARGUMENTS empty_world).1)
     = Some (nl +:+ "Comparison complete!")) /\
  (main (fun _ => "") ascii_environment DEFAULT_ARGUMENTS empty_world).2
  = Raise UnicodeEncodeError.
Proof.
  split.
  - destruct (main_outcome (fun _ => "") sample_environment DEFAULT_ARGUMENTS empty_world
                eq_refl) as (rs & Hrs & Hok & _).
    exists rs. split; [exact Hrs |]. apply Hok; [reflexivity |].
    vm_compute in Hrs. injection Hrs as <-.
    intros model st key t Hin Hk Hv. simpl in Hin, Hk.
    destruct Hin as [[= <- <-] | [[=] | [[=] | []]]].
    destruct Hk as [<- | [<- | [<- | [<- | []]]]]; vm_compute in Hv; discriminate Hv.
  - destruct (main_outcome (fun _ => "") ascii_environment DEFAULT_ARGUMENTS empty_world
                eq_refl) as (rs & _ & _ & Hraise & _).
    exact (proj1 (Hraise eq_refl)).
Defined.

Lemma main_saves_figure_witness :
  exists rs,
    collect_results (captured_output sample_environment DEFAULT_ARGUMENTS) MODELS [] = Ok rs /\
    saved (main (fun _ => "") sample_environment DEFAULT_ARGUMENTS empty_world).1 =
      (saved empty_world ++
       if loop_encodable sample_environment DEFAULT_ARGUMENTS MODELS then
         match analyze_results rs,
               create_visual_results_table (fun _ => "")
                 (matplotlib_available sample_environment) rs with
         | Ok _, Ok (_, Some fig) => [fig]
         | _, _ => []
         end
       else [])%list.
Proof.
  apply (main_saves_figure (fun _ => "") sample_environment). reflexivity.
Defined.

(** The rows of the console table are aligned: a row is the model padded to
    10 characters and four cells padded to 12, with a space between them, so
    62 characters when every text fits; a longer text is kept whole and
    widens its row. *)
Theorem console_row_width (r : console_row) :
  String.length (format_row r) =
    (Nat.max 10 (String.length (col_model r)) + Nat.max 12 (String.length (col_dogs r)) +
     Nat.max 12 (String.length (col_breeds r)) + Nat.max 12 (String.length (col_notdogs r)) +
     Nat.max 12 (String.length (col_match r)) + 4)%nat.
Proof.
  unfold format_row. rewrite !length_append, !ljust_length. simpl. lia.
Qed.

(** ** The cells drawn bold *)

Section EmphasisFacts.

Variable float_repr : spec_float -> string.

#[local] Arguments visual_rows : simpl never.

Lemma create_visual_results_table_rows (available : bool) (all_results : results)
    (out : list string) (fig : figure) :
  create_visual_results_table float_repr available all_results = Ok (out, Some fig) ->
  Forall2 (display_row all_results) DISPLAY_MODELS (table_data fig) /\
  emphasised fig = map (fun row => map is_emphasised (tail row)) (table_data fig).
Proof.
  unfold create_visual_results_table. destruct available; simpl; [| done].
  destruct all_results as [|[model first] rest]; [done |].
  destruct (truthy first); simpl; [| done].
  destruct (visual_rows float_repr _ DISPLAY_MODELS) as [rows|] eqn:Hrows; [| done].
  simpl. intros [= _ <-]. simpl. split; [| done].
  by apply (visual_rows_display float_repr).
Qed.

(** In a saved figure every row of the detailed table has five cells that
    can be drawn bold and blue, and none of the five is for a model without
    result: an [ERROR] cell is never emphasised. *)
Theorem error_rows_not_emphasised (available : bool) (all_results : results)
    (out : list string) (fig : figure) :
  create_visual_results_table float_repr available all_results = Ok (out, Some fig) ->
  Forall2 (fun model flags =>
             length flags = 5%nat /\
             (without_result (lower model) all_results ->
              flags = [false; false; false; false; false]))
          DISPLAY_MODELS (emphasised fig).
Proof.
  intros [Hrows ->]%create_visual_results_table_rows.
  induction Hrows as [|model row models rows (cells & -> & Hlen & Herr) _ IH];
    [constructor |].
  cbn [map tail]. constructor; [| exact IH]. split.
  - by rewrite length_map.
  - intros Hw. by rewrite (Herr Hw).
Qed.

End EmphasisFacts.

Lemma error_rows_not_emphasised_witness :
  exists out fig,
    create_visual_results_table (fun _ => "") true partial_results = Ok (out, Some fig) /\
    Forall2 (fun model flags =>
               length flags = 5%nat /\
               (without_result (lower model) partial_results ->
                flags = [false; false; false; false; false]))
            DISPLAY_MODELS (emphasised fig) /\
    emphasised fig = [[false; false; false; false; false];
                      [false; false; false; false; false];
                      [false; false; false; true; false]].
Proof.
  assert (H : exists out fig,
            create_visual_results_table (fun _ => "") true partial_results
            = Ok (out, Some fig))
    by (vm_compute; eexists _, _; reflexivity).
  destruct H as (out & fig & Hfig). exists out, fig. split; [exact Hfig |]. split.
  - exact (error_rows_not_emphasised (fun _ => "") true partial_results out fig Hfig).
  - vm_compute in Hfig. injection Hfig as _ <-. reflexivity.
Defined.

(** ** The row of the first model *)

Section FirstModelFacts.

Variable float_repr : spec_float -> string.

(** A figure is saved only when the first result of the collection is not
    empty, and under [main] the first result is that of vgg.  So in every
    saved figure the VGG row, the last of the detailed table, holds vgg's
    own values, never [ERROR]: its percentages for not-dogs, dogs, breeds
    and the match rate, in this order, each the stored value, or zero for a
    missing one, formatted with [.1f] and followed by a percent sign, and
    its stored runtime, [0:0:0] when none was stored. *)
Theorem vgg_row_of_figure (available : bool) (first : run_result) (rest : results)
    (out : list string) (fig : figure) :
  create_visual_results_table float_repr available (("vgg", first) :: rest)
    = Ok (out, Some fig) ->
  exists st a b c d,
    first = Some st /\ st <> ∅ /\
    format_1f (get_or st "pct_correct_notdogs" (VInt 0)) = Ok a /\
    format_1f (get_or st "pct_correct_dogs" (VInt 0)) = Ok b /\
    format_1f (get_or st "pct_correct_breed" (VInt 0)) = Ok c /\
    format_1f (get_or st "pct_match" (VInt 0)) = Ok d /\
    table_data fig !! 2%nat =
      Some ["VGG"; a +:+ "%"; b +:+ "%"; c +:+ "%"; d +:+ "%";
            py_str float_repr (get_or st "runtime" (VStr "0:0:0"))].
Proof.
  unfold create_visual_results_table. destruct available; simpl; [| done].
  destruct (truthy first) eqn:Ht; simpl; [| done].
  destruct first as [st|]; [| done].
  destruct (visual_row float_repr _ "ResNet") as [row1|]; [| done].
  destruct (visual_row float_repr _ "AlexNet") as [row2|]; [| done].
  destruct (visual_row float_repr (("vgg", Some st) :: rest) "VGG") as [row3|] eqn:H3;
    [| done].
  simpl. intros [= _ <-]. simpl.
  unfold visual_row in H3. simpl in H3, Ht. rewrite Ht in H3. simpl in H3.
  unfold pct_text in H3.
  destruct (format_1f (get_or st "pct_correct_notdogs" (VInt 0))) as [a|] eqn:Ha;
    [| done].
  destruct (format_1f (get_or st "pct_correct_dogs" (VInt 0))) as [b|] eqn:Hb; [| done].
  destruct (format_1f (get_or st "pct_correct_breed" (VInt 0))) as [c|] eqn:Hc; [| done].
  destruct (format_1f (get_or st "pct_match" (VInt 0))) as [d|] eqn:Hd; [| done].
  simpl in H3. injection H3 as <-.
  exists st, a, b, c, d. split_and!; try done.
  apply negb_true_iff in Ht. by apply bool_decide_eq_false in Ht.
Qed.

End FirstModelFacts.

Lemma vgg_row_of_figure_witness :
  exists out fig,
    create_visual_results_table (fun _ => "") true partial_results = Ok (out, Some fig) /\
    table_data fig !! 2%nat = Some ["VGG"; "0.0%"; "0.0%"; "0.0%"; "80.0%"; "0:0:0"].
Proof.
  assert (H : exists out fig,
            create_visual_results_table (fun _ => "") true partial_results
            = Ok (out, Some fig))
    by (vm_compute; eexists _, _; reflexivity).
  destruct H as (out & fig & Hfig). exists out, fig. split; [exact Hfig |].
  destruct (vgg_row_of_figure (fun _ => "") true _ _ out fig Hfig)
    as (st & a & b & c & d & Hst & _ & Ha & Hb & Hc & Hd & ->).
  injection Hst as <-.
  vm_compute in Ha, Hb, Hc, Hd.
  injection Ha as <-. injection Hb as <-. injection Hc as <-. injection Hd as <-.
  reflexivity.
Defined.
